(** * Member aggregation hook [useDaoMembers] (src/src/hooks/useDaoMembers.tsx)

    A shallow embedding of the hook and of the comparator [sortDaoMembers],
    followed by the properties the specification states about them.

    Modelling conventions.
    - JavaScript strings are [string]s whose characters are the code units
      0..255; addresses are hexadecimal ASCII text.
    - A JavaScript [number] is the rational (type [Q]) it stands for.  The
      number [Number(formatUnits(v, d))] is the IEEE 754 double nearest to
      [v / 10^d]; the amounts read from the chain and from the indexes are
      256-bit unsigned integers, far below the largest double, so that no
      infinity arises.  Counts and lengths are [nat].
    - An exception is an outcome [Throws]; [useDaoMembers] gives the
      envelope of a call that returns, [useDaoMembersChecked] tells whether
      it returns.
    - [undefined] and [null] are [None].
    - The hooks the aggregator consumes are fields of an environment record
      [Env]; the aggregator itself is a function of that environment and of
      its three arguments. *)

From Stdlib Require Import List String Ascii Bool Arith NArith ZArith QArith.
From Stdlib Require Import Lia Lqa Permutation Sorted.
Import ListNotations.

Local Open Scope string_scope.
Local Open Scope list_scope.

(** ** JavaScript primitives used by the hook *)

Module Js.

(** [String.prototype.toLowerCase] on one code unit below 256: the ASCII
    capitals and the Latin-1 capitals (all of U+00C0..U+00DE but the
    multiplication sign U+00D7) move up by 32. *)
Definition lowerUnit (c : ascii) : ascii :=
  let n := N_of_ascii c in
  if ((65 <=? n) && (n <=? 90))%N
     || ((192 <=? n) && (n <=? 222) && negb (n =? 215))%N
  then ascii_of_N (n + 32)
  else c.

Fixpoint toLowerCase (s : string) : string :=
  match s with
  | EmptyString => EmptyString
  | String c s' => String (lowerUnit c) (toLowerCase s')
  end.

(** [s.includes(sub)]: [sub] occurs in [s] at some position. *)
Fixpoint includes (s sub : string) : bool :=
  String.prefix sub s
  || match s with
     | EmptyString => false
     | String _ s' => includes s' sub
     end.

(** [a > b] on strings: lexicographic comparison of code units. *)
Definition gt (a b : string) : bool := String.ltb b a.

(** [x || d] on an optional boolean: [undefined] and [false] are falsy. *)
Definition orDefault (x : option bool) (d : bool) : bool :=
  match x with
  | Some true => true
  | _ => d
  end.

(** [x ?? d]. *)
Definition nullish {A : Type} (x : option A) (d : A) : A :=
  match x with
  | Some v => v
  | None => d
  end.

(** Truthiness of an optional string: [undefined] and the empty string are
    falsy. *)
Definition truthyString (x : option string) : bool :=
  match x with
  | Some (String _ _) => true
  | _ => false
  end.

(** [x > y] on numbers. *)
Definition gtNum (x y : Q) : bool := negb (Qle_bool x y).

(** The TypeScript assertion [x as string]; it has no run-time effect, so
    the value is only meaningful where [x] is defined. *)
Definition asString (x : option string) : string := nullish x "".

Section Sort.
Context {A : Type}.
Variable comparefn : A -> A -> Q.

(** [x] is placed before the first element it compares below. *)
Fixpoint insert (x : A) (l : list A) : list A :=
  match l with
  | [] => [x]
  | y :: l' =>
      if Qle_bool 0 (comparefn x y) then y :: insert x l'
      else x :: y :: l'
  end.

(** [Array.prototype.sort(comparefn)] as a stable insertion sort: the
    elements are taken from left to right and each one is inserted into
    the already sorted part.  Where [comparefn] is not a consistent
    comparator (it is not on lists that mix the two variants of members)
    the order an engine produces is its own and may differ. *)
Definition sort (l : list A) : list A :=
  fold_left (fun acc x => insert x acc) l [].
End Sort.

End Js.

(** ** Data model *)

Inductive DaoMemberSort := delegations | votingPower.

Record MultisigDaoMember := { ms_address : string }.

Record TokenDaoMember := {
  tk_address : string;
  tk_balance : Q;
  tk_votingPower : Q;
  tk_delegatee : string;
  tk_delegators : list string
}.

(** [DaoMember = MultisigDaoMember | TokenDaoMember]; the constructor plays
    the part of the run-time test ['balance' in member]. *)
Inductive DaoMember :=
| Basic (m : MultisigDaoMember)
| Token (m : TokenDaoMember).

(** [member.address], present in both variants. *)
Definition memberAddress (m : DaoMember) : string :=
  match m with
  | Basic b => ms_address b
  | Token t => tk_address t
  end.

Definition isTokenDaoMember (m : DaoMember) : bool :=
  match m with
  | Basic _ => false
  | Token _ => true
  end.

Definition compareAddresses (addressA addressB : option string) : bool :=
  match option_map Js.toLowerCase addressA, option_map Js.toLowerCase addressB with
  | Some a, Some b => String.eqb a b
  | None, None => true
  | _, _ => false
  end.

(** ** The comparator *)

Definition sortDaoMembers (sort : option DaoMemberSort) (userAddress : option string)
    (a b : DaoMember) : Q :=
  let isConnectedUserA := compareAddresses (Some (memberAddress a)) userAddress in
  let isConnectedUserB := compareAddresses (Some (memberAddress b)) userAddress in
  if isConnectedUserA || isConnectedUserB then
    if isConnectedUserA then (-1)%Q else 1%Q
  else
    match a, b with
    | Token ta, Token tb =>
        let isDelegatorA :=
          existsb (fun delegator => compareAddresses (Some delegator) userAddress)
                  (tk_delegators ta) in
        let isDelegatorB :=
          existsb (fun delegator => compareAddresses (Some delegator) userAddress)
                  (tk_delegators tb) in
        if isDelegatorA || isDelegatorB then
          if isDelegatorA then (-1)%Q else 1%Q
        else
          let delegatorsResult :=
            inject_Z (Z.of_nat (List.length (tk_delegators tb))
                      - Z.of_nat (List.length (tk_delegators ta))) in
          let votingPowerResult := (tk_votingPower tb - tk_votingPower ta)%Q in
          match sort with
          | Some delegations =>
              if Qeq_bool delegatorsResult 0 then votingPowerResult
              else delegatorsResult
          | _ => votingPowerResult
          end
    | _, _ => if Js.gt (memberAddress a) (memberAddress b) then 1%Q else (-1)%Q
    end.

(** ** Shapes of the external data *)

(** Modelled from the spec: the type [PluginTypes] and the constant
    [GaslessPluginName] are declared in [usePluginClient], outside the
    source files embedded here; the plugin type is "one of a closed set of
    plugin-type tags, including a token-voting tag and a gasless tag". *)
Inductive PluginTypes :=
| TokenVotingPlugin   (* 'token-voting.plugin.dao.eth' *)
| MultisigPlugin
| GaslessPluginName.

Record Erc20TokenDetails := {
  token_address : string;
  token_decimals : nat;
  token_name : string;
  token_symbol : string
}.

(** A holder as the graph-index service reports it; [balance] and [votes]
    are raw integers. *)
Record TokenHolder := {
  holder_address : string;
  holder_balance : Z;
  holder_votes : Z;
  holder_delegates : string
}.

Record HoldersPage := {
  holders : list TokenHolder;
  totalHolders : nat
}.

(** [graphqlData], read as [graphqlData.holders.holders] and
    [graphqlData.holders.totalHolders]. *)
Record TokenHoldersResponse := { response_holders : HoldersPage }.

Record Delegator := {
  delegator_address : string;
  delegator_balance : Z
}.

Record TokenVotingMember := {
  tvm_address : string;
  tvm_balance : Z;
  tvm_votingPower : Z;
  tvm_delegatee : option string;
  tvm_delegators : list Delegator
}.

(** An entry of the subgraph answer: [string | TokenVotingMember]. *)
Inductive SdkMember :=
| SdkAddress (member : string)
| SdkTokenVoting (member : TokenVotingMember).

Record DaoMembersOptions := {
  opt_searchTerm : option string;
  opt_sort : option DaoMemberSort;
  opt_page : option nat;
  opt_countOnly : option bool;
  opt_memberList : option (list string);
  opt_enabled : option bool
}.

(** The object [{}]. *)
Definition noOptions : DaoMembersOptions :=
  {| opt_searchTerm := None; opt_sort := None; opt_page := None;
     opt_countOnly := None; opt_memberList := None; opt_enabled := None |}.

Record DaoMembersData := {
  members : list DaoMember;
  memberCount : nat;
  filteredMembers : list DaoMember;
  daoToken : option Erc20TokenDetails
}.

Record HookData := {
  data : DaoMembersData;
  isLoading : bool;
  isError : bool
}.

(** What a data-fetching hook hands back. *)
Record QueryResult (A : Type) := {
  q_data : option A;
  q_isError : bool;
  q_isLoading : bool
}.
Arguments q_data {A} _.
Arguments q_isError {A} _.
Arguments q_isLoading {A} _.

(** The collaborators of the aggregator.  Each hook is a function of the
    arguments the aggregator passes to it; the last argument of a query hook
    is its [enabled] flag. *)
Record Env := {
  useNetwork : string;
  useWallet : option string;
  useDaoToken : string -> option Erc20TokenDetails;
  useTokenHolders :
    string -> option string -> option nat -> bool -> QueryResult TokenHoldersResponse;
  useMembers :
    string -> option PluginTypes -> bool -> QueryResult (list SdkMember);
  useCensus3DaoMembers :
    list DaoMember -> string -> option PluginTypes -> DaoMembersOptions -> HookData;
  (** the table [CHAIN_METADATA], as the [id] of the entry of a network;
      a network without an entry has none *)
  CHAIN_METADATA : string -> option nat;
  (** the answer of the chain to the one-call read [balanceOf(wallet)] on the
      token contract: the tuple of results, or nothing when the read has not
      answered or has failed *)
  balanceOf : option string -> option string -> nat -> option (list Z)
}.

(** [CHAIN_METADATA[network].id], where the table has an entry for the
    network; reading [id] off a missing entry raises a [TypeError], see
    [useDaoMembersChecked]. *)
Definition CHAIN_METADATA_id (env : Env) (network : string) : nat :=
  Js.nullish (CHAIN_METADATA env network) 0%nat.

(** Modelled from the spec: [useReadContracts] is a hook of the wagmi library.
    Its [data] is the answer of the chain when [query.enabled] holds; "a
    failed or disabled read simply yields a zero balance", that is, no data. *)
Definition useReadContracts (env : Env) (contractAddress wallet : option string)
    (chainId : nat) (queryEnabled : bool) : option (list Z) :=
  if queryEnabled then balanceOf env contractAddress wallet chainId else None.

(** ** Doubles

    [Number(text)] on the decimal text of a rational: the IEEE 754 binary64
    value nearest to it, ties to the even significand, as a fraction in
    lowest terms. *)

Module Double.

(** [2^e] for [e >= 0], and 1 below. *)
Definition pow2 (e : Z) : Z := (2 ^ Z.max 0 e)%Z.

(** The integer nearest to [num / den], the even one of two equally near. *)
Definition roundHalfEven (num den : Z) : Z :=
  let q := (num / den)%Z in
  let r := (num mod den)%Z in
  if (2 * r <? den)%Z then q
  else if (den <? 2 * r)%Z then (q + 1)%Z
  else if Z.even q then q else (q + 1)%Z.

(** [2^e <= n / d]. *)
Definition atLeastPow2 (n d e : Z) : bool :=
  (d * pow2 e <=? n * pow2 (- e))%Z.

(** The binary exponent of [n / d]: the [e] with [2^e <= n / d < 2^(e+1)]. *)
Definition exponent (n d : Z) : Z :=
  let e0 := (Z.log2 n - Z.log2 d)%Z in
  if atLeastPow2 n d e0 then e0 else (e0 - 1)%Z.

(** The double nearest to [n / d]: 53 significant bits, the exponent not
    below -1022 (lesser values are rounded to a multiple of [2^-1074]).
    Values of [2^1024] and more, for which JavaScript has [Infinity], are
    beyond this model. *)
Definition roundPos (n d : positive) : Q :=
  let e := exponent (Zpos n) (Zpos d) in
  let k := (Z.max e (-1022) - 52)%Z in
  let m := roundHalfEven (Zpos n * pow2 (- k)) (Zpos d * pow2 k) in
  Qred (Qmake (m * pow2 k) (Z.to_pos (pow2 (- k)))).

Definition round (x : Q) : Q :=
  match Qnum x with
  | Z0 => 0
  | Zpos n => roundPos n (Qden x)
  | Zneg n => - roundPos n (Qden x)
  end.

End Double.

(** [Number(formatUnits(value, unitName))]: the double nearest to
    [value / 10^unitName]; ethers takes 18 decimals when [unitName] is
    [undefined].  ethers rejects a number of decimals above 256, see
    [formatUnitsChecked]. *)
Definition formatUnits (value : Z) (unitName : option nat) : Q :=
  Double.round (Qmake value (Z.to_pos (10 ^ Z.of_nat (Js.nullish unitName 18%nat)))).

(** The default parameter [tokenDecimals = 0] applies when the argument is
    [undefined]. *)
Definition sdkToDaoMember (member : SdkMember) (tokenDecimals : option nat) : DaoMember :=
  let tokenDecimals := Js.nullish tokenDecimals 0%nat in
  match member with
  | SdkAddress member => Basic {| ms_address := member |}
  | SdkTokenVoting member =>
      Token {| tk_address := tvm_address member;
               tk_balance := formatUnits (tvm_balance member) (Some tokenDecimals);
               tk_votingPower := formatUnits (tvm_votingPower member) (Some tokenDecimals);
               tk_delegatee := Js.nullish (tvm_delegatee member) (tvm_address member);
               tk_delegators := map delegator_address (tvm_delegators member) |}
  end.

(** ** The hook

    The constants of the body of [useDaoMembers], in the order of the source
    and under their names there, as functions of the environment and of the
    three arguments of the call. *)

Module Hook.
Section Call.
Variable env : Env.
Variable pluginAddress : string.
Variable pluginType : option PluginTypes.
Variable options : option DaoMembersOptions.

Definition network : string := useNetwork env.
Definition address : option string := useWallet env.
Definition daoToken : option Erc20TokenDetails := useDaoToken env pluginAddress.

Definition isGaslessBased : bool :=
match pluginType with
| Some GaslessPluginName => true
| _ => false
end.

Definition isTokenBased : bool :=
match pluginType with
| Some TokenVotingPlugin => true
| _ => false
end.

Definition opts : DaoMembersOptions := Js.nullish options noOptions.

(** [opts?.countOnly || false] *)
Definition countOnly : bool := Js.orDefault (opt_countOnly opts) false.

(** [opts?.enabled || true] *)
Definition enabled : bool := Js.orDefault (opt_enabled opts) true.

Definition covalentSupportedNetwork : bool :=
negb ((network =? "arbitrum") || (network =? "base")
      || (network =? "zksyncSepolia"))%string.

Definition isSome {A : Type} (x : option A) : bool :=
match x with
| Some _ => true
| None => false
end.

Definition useGraphql : bool :=
isTokenBased && covalentSupportedNetwork && isSome pluginType
&& isSome daoToken && enabled.

Definition tokenHoldersQuery : QueryResult TokenHoldersResponse :=
useTokenHolders env network (option_map token_address daoToken)
                (opt_page opts) useGraphql.

Definition graphqlData : option TokenHoldersResponse := q_data tokenHoldersQuery.
Definition isGraphqlError : bool := q_isError tokenHoldersQuery.
Definition isGraphqlLoading : bool := q_isLoading tokenHoldersQuery.

Definition useSubgraph : bool :=
(isSome pluginType && negb isTokenBased)
|| negb covalentSupportedNetwork
|| (covalentSupportedNetwork && isGraphqlError).

Definition membersQuery : QueryResult (list SdkMember) :=
useMembers env pluginAddress pluginType (useSubgraph && enabled).

(** [data: subgraphData = []] *)
Definition subgraphData : list SdkMember := Js.nullish (q_data membersQuery) [].
Definition isSubgraphError : bool := q_isError membersQuery.
Definition isSubgraphLoading : bool := q_isLoading membersQuery.

Definition parsedSubgraphData : list DaoMember :=
map (fun member => sdkToDaoMember member (option_map token_decimals daoToken))
    subgraphData.

Definition enableCensus3 : bool := enabled && isGaslessBased.

(** [{...options, countOnly, enabled: enableCensus3, page: opts?.page}] *)
Definition census3Options : DaoMembersOptions :=
{| opt_searchTerm := opt_searchTerm opts;
   opt_sort := opt_sort opts;
   opt_page := opt_page opts;
   opt_countOnly := Some countOnly;
   opt_memberList := opt_memberList opts;
   opt_enabled := Some enableCensus3 |}.

Definition census3Data : HookData :=
useCensus3DaoMembers env parsedSubgraphData pluginAddress pluginType
                     census3Options.

Definition balanceQueryEnabled : bool :=
isSome address && isSome daoToken && negb countOnly && enabled
&& negb enableCensus3.

Definition userBalance : option (list Z) :=
useReadContracts env (option_map token_address daoToken) address
                 (CHAIN_METADATA_id env network) balanceQueryEnabled.

(** [Number(formatUnits(userBalance?.[0] ?? '0', daoToken?.decimals))] *)
Definition userBalanceNumber : Q :=
formatUnits
  (Js.nullish (match userBalance with
               | Some results => nth_error results 0
               | None => None
               end) 0%Z)
  (option_map token_decimals daoToken).

(** The count of the count-only envelope. *)
Definition countOnlyMemberCount : nat :=
if useSubgraph then List.length parsedSubgraphData
else Js.nullish
       (option_map (fun g => totalHolders (response_holders g)) graphqlData)
       0%nat.

(** [graphqlData?.holders.holders ?? []] *)
Definition graphqlHolders : list TokenHolder :=
Js.nullish (option_map (fun g => holders (response_holders g)) graphqlData) [].

Definition parsedGraphqlData : list DaoMember :=
map (fun member =>
       let tokenDecimals := option_map token_decimals daoToken in
       let delegators :=
         map holder_address
             (filter
                (fun holder =>
                   negb (compareAddresses (Some (holder_address holder))
                                          (Some (holder_address member)))
                   && compareAddresses (Some (holder_delegates holder))
                                       (Some (holder_address member)))
                graphqlHolders) in
       Token {| tk_address := holder_address member;
                tk_balance := formatUnits (holder_balance member) tokenDecimals;
                tk_votingPower := formatUnits (holder_votes member) tokenDecimals;
                tk_delegatee := holder_delegates member;
                tk_delegators := delegators |})
    graphqlHolders.

Definition getCombinedData : list DaoMember :=
if useSubgraph then
  if (List.length subgraphData =? 0)%nat && Js.gtNum userBalanceNumber 0 then
    [ Token {| tk_address := Js.asString address;
               tk_balance := userBalanceNumber;
               tk_votingPower := userBalanceNumber;
               tk_delegatee := Js.asString address;
               tk_delegators := [] |} ]
  else parsedSubgraphData
else parsedGraphqlData.

Definition sortedData : list DaoMember :=
match opt_sort opts with
| Some key => Js.sort (sortDaoMembers (Some key) address) getCombinedData
| None => getCombinedData
end.

Definition memberCount : nat :=
if useSubgraph then List.length sortedData
else Js.nullish
       (option_map (fun g => totalHolders (response_holders g)) graphqlData)
       (List.length sortedData).

Definition searchTerm : option string := opt_searchTerm opts.

Definition filteredData : list DaoMember :=
if negb (Js.truthyString searchTerm) then sortedData
else
  filter (fun member =>
            Js.includes (Js.toLowerCase (memberAddress member))
                        (Js.toLowerCase (Js.asString searchTerm)))
         sortedData.
End Call.
End Hook.

(** The envelope the hook returns: the [return] statements of the body, in
    their order.  Whether a call returns at all is told by
    [useDaoMembersChecked] below. *)
Definition useDaoMembers (env : Env) (pluginAddress : string)
    (pluginType : option PluginTypes) (options : option DaoMembersOptions) : HookData :=
  if negb (Hook.enabled options) then
    {| data := {| members := []; filteredMembers := []; memberCount := 0;
                  daoToken := None |};
       isLoading := false;
       isError := false |}
  else if Hook.enableCensus3 pluginType options then
    Hook.census3Data env pluginAddress pluginType options
  else if Hook.countOnly options then
    {| data := {| members := []; filteredMembers := [];
                  daoToken := Hook.daoToken env pluginAddress;
                  memberCount :=
                    Hook.countOnlyMemberCount env pluginAddress pluginType options |};
       isLoading := Hook.isSubgraphLoading env pluginAddress pluginType options
                    && Hook.isGraphqlLoading env pluginAddress pluginType options;
       isError := Hook.isSubgraphError env pluginAddress pluginType options
                  || Hook.isGraphqlError env pluginAddress pluginType options |}
  else
    {| data := {| members := Hook.sortedData env pluginAddress pluginType options;
                  filteredMembers :=
                    Hook.filteredData env pluginAddress pluginType options;
                  daoToken := Hook.daoToken env pluginAddress;
                  memberCount :=
                    Hook.memberCount env pluginAddress pluginType options |};
       isLoading := Hook.isSubgraphLoading env pluginAddress pluginType options
                    && Hook.isGraphqlLoading env pluginAddress pluginType options;
       isError := Hook.isSubgraphError env pluginAddress pluginType options
                  || Hook.isGraphqlError env pluginAddress pluginType options |}.

(** ** Vocabulary of the properties *)

(** The two tests of the comparator. *)
Definition isConnectedUser (userAddress : option string) (m : DaoMember) : bool :=
  compareAddresses (Some (memberAddress m)) userAddress.

Definition isDelegator (userAddress : option string) (m : TokenDaoMember) : bool :=
  existsb (fun delegator => compareAddresses (Some delegator) userAddress)
          (tk_delegators m).


(** A list whose first element passes the test [top]. *)
Definition topHead {A : Type} (top : A -> bool) (l : list A) : Prop :=
  exists m rest, l = m :: rest /\ top m = true.

(** ** Sample data *)

Module Sample.

Definition wallet : string := "0xAbC1".

Definition basic (a : string) : DaoMember := Basic {| ms_address := a |}.

Definition holder (a : string) (votes : Q) (ds : list string) : DaoMember :=
  Token {| tk_address := a; tk_balance := votes; tk_votingPower := votes;
           tk_delegatee := a; tk_delegators := ds |}.

Definition carol : TokenDaoMember :=
  {| tk_address := "0xc0"; tk_balance := 5; tk_votingPower := 5;
     tk_delegatee := "0xc0"; tk_delegators := ["0xd1"; "0xd2"] |}.

Definition dave : TokenDaoMember :=
  {| tk_address := "0xd0"; tk_balance := 90; tk_votingPower := 90;
     tk_delegatee := "0xd0"; tk_delegators := ["0xd3"] |}.

Definition erin : TokenDaoMember :=
  {| tk_address := "0xe0"; tk_balance := 7; tk_votingPower := 7;
     tk_delegatee := "0xe0"; tk_delegators := ["0xd4"] |}.

(** The connected wallet, recorded in lower case by the index. *)
Definition me : DaoMember := holder "0xabc1" 1 [].

Definition board : list DaoMember := [Token dave; Token carol; me; Token erin].

End Sample.

(** ** Sample environments *)

Module World.

Definition token : Erc20TokenDetails :=
  {| token_address := "0x70"; token_decimals := 0;
     token_name := "Gov"; token_symbol := "GOV" |}.

Definition noEnvelope : HookData :=
  {| data := {| members := []; memberCount := 0; filteredMembers := [];
                daoToken := None |};
     isLoading := false; isError := false |}.

Definition answer {A : Type} (x : option A) (err loading : bool) : QueryResult A :=
  {| q_data := x; q_isError := err; q_isLoading := loading |}.

(** An environment from its network, the answers of the two queries and
    the raw balance of the connected wallet. *)
Definition make (net : string)
    (graph : QueryResult TokenHoldersResponse)
    (subgraph : QueryResult (list SdkMember))
    (raw : Z) : Env :=
  {| useNetwork := net;
     useWallet := Some Sample.wallet;
     useDaoToken := fun _ => Some token;
     useTokenHolders := fun _ _ _ _ => graph;
     useMembers := fun _ _ _ => subgraph;
     useCensus3DaoMembers := fun _ _ _ _ => noEnvelope;
     CHAIN_METADATA := fun _ => Some 1%nat;
     balanceOf := fun _ _ _ => Some [raw] |}.

(** A multisig DAO whose subgraph lists one signer. *)
Definition multisig : Env :=
  make "ethereum" (answer None false false)
       (answer (Some [SdkAddress "0x01"]) false false) 0.

(** A token DAO on a network without the graph index; the subgraph has
    answered with no member and the wallet holds 150 units. *)
Definition lagging : Env :=
  make "arbitrum" (answer None false true) (answer (Some []) false true) 150.

(** The same DAO with a failed subgraph query. *)
Definition failing : Env :=
  make "arbitrum" (answer None false false) (answer None true false) 150.

(** The same DAO with two members in the subgraph. *)
Definition listed : Env :=
  make "arbitrum" (answer None false false)
       (answer (Some [SdkAddress "0xAB01"; SdkAddress "0x1234"]) false false) 0.

Definition holderA : TokenHolder :=
  {| holder_address := "0xA1"; holder_balance := 3; holder_votes := 0;
     holder_delegates := "0xb2" |}.

Definition holderB : TokenHolder :=
  {| holder_address := "0xB2"; holder_balance := 4; holder_votes := 7;
     holder_delegates := "0xB2" |}.

(** A token DAO served by the graph index, which knows 40 holders and
    returns a page of two. *)
Definition indexed : Env :=
  make "ethereum"
       (answer (Some {| response_holders :=
                          {| holders := [holderA; holderB];
                             totalHolders := 40 |} |}) false true)
       (answer None false false) 0.

Definition only (countOnly : option bool) (enabled : option bool)
    (searchTerm : option string) : option DaoMembersOptions :=
  Some {| opt_searchTerm := searchTerm; opt_sort := None; opt_page := None;
          opt_countOnly := countOnly; opt_memberList := None;
          opt_enabled := enabled |}.

End World.

(** ** Exceptions

    The hook has no [try]: what throws inside it escapes it.  Two of its
    expressions can throw on values of their types: ethers' [formatUnits]
    rejects a number of decimals above 256 ("invalid decimal size"), and
    [CHAIN_METADATA[network].id] reads a property of [undefined] when the
    table has no entry for the network. *)

Inductive JsError :=
| InvalidDecimalSize
| ChainUndefined.

Inductive Outcome (A : Type) : Type :=
| Returns (value : A)
| Throws (error : JsError).
Arguments Returns {A} _.
Arguments Throws {A} _.

Definition bind {A B : Type} (c : Outcome A) (k : A -> Outcome B) : Outcome B :=
  match c with
  | Returns a => k a
  | Throws e => Throws e
  end.

Notation "x <- c ;; k" := (bind c (fun x => k))
  (at level 61, c at next level, right associativity).

(** [l.map(f)] with an [f] that may throw: the first exception ends it. *)
Fixpoint mapChecked {A B : Type} (f : A -> Outcome B) (l : list A)
  : Outcome (list B) :=
  match l with
  | [] => Returns []
  | x :: l' => y <- f x ;; ys <- mapChecked f l' ;; Returns (y :: ys)
  end.

Definition formatUnitsChecked (value : Z) (unitName : option nat) : Outcome Q :=
  if (256 <? Js.nullish unitName 18)%nat then Throws InvalidDecimalSize
  else Returns (formatUnits value unitName).

Definition sdkToDaoMemberChecked (member : SdkMember) (tokenDecimals : option nat)
  : Outcome DaoMember :=
  let tokenDecimals := Js.nullish tokenDecimals 0%nat in
  match member with
  | SdkAddress member => Returns (Basic {| ms_address := member |})
  | SdkTokenVoting member =>
      balance <- formatUnitsChecked (tvm_balance member) (Some tokenDecimals) ;;
      votingPower <- formatUnitsChecked (tvm_votingPower member) (Some tokenDecimals) ;;
      Returns
        (Token {| tk_address := tvm_address member;
                  tk_balance := balance;
                  tk_votingPower := votingPower;
                  tk_delegatee := Js.nullish (tvm_delegatee member) (tvm_address member);
                  tk_delegators := map delegator_address (tvm_delegators member) |})
  end.

(** The body of the hook once more, statement by statement, with the
    expressions that can throw. *)
Definition useDaoMembersChecked (env : Env) (pluginAddress : string)
    (pluginType : option PluginTypes) (options : option DaoMembersOptions)
  : Outcome HookData :=
  let network := useNetwork env in
  let address := useWallet env in
  let daoToken := useDaoToken env pluginAddress in
  let decimals := option_map token_decimals daoToken in
  let opts := Hook.opts options in
  let countOnly := Hook.countOnly options in
  let enabled := Hook.enabled options in
  let graphqlData := Hook.graphqlData env pluginAddress pluginType options in
  let useSubgraph := Hook.useSubgraph env pluginAddress pluginType options in
  let subgraphData := Hook.subgraphData env pluginAddress pluginType options in
  (* l.179 *)
  parsedSubgraphData <-
    mapChecked (fun member => sdkToDaoMemberChecked member decimals) subgraphData ;;
  let enableCensus3 := Hook.enableCensus3 pluginType options in
  (* l.184 *)
  let census3Data :=
    useCensus3DaoMembers env parsedSubgraphData pluginAddress pluginType
                         (Hook.census3Options pluginType options) in
  (* l.204 *)
  chainId <-
    match CHAIN_METADATA env network with
    | Some id => Returns id
    | None => Throws ChainUndefined
    end ;;
  let userBalance :=
    useReadContracts env (option_map token_address daoToken) address chainId
      (Hook.balanceQueryEnabled env pluginAddress pluginType options) in
  (* l.217 *)
  userBalanceNumber <-
    formatUnitsChecked
      (Js.nullish (match userBalance with
                   | Some results => nth_error results 0
                   | None => None
                   end) 0%Z)
      decimals ;;
  if negb enabled then
    Returns {| data := {| members := []; filteredMembers := []; memberCount := 0;
                          daoToken := None |};
               isLoading := false;
               isError := false |}
  else if enableCensus3 then Returns census3Data
  else if countOnly then
    Returns
      {| data := {| members := []; filteredMembers := [];
                    daoToken := daoToken;
                    memberCount :=
                      if useSubgraph then List.length parsedSubgraphData
                      else Js.nullish
                             (option_map (fun g => totalHolders (response_holders g))
                                         graphqlData) 0%nat |};
         isLoading := Hook.isSubgraphLoading env pluginAddress pluginType options
                      && Hook.isGraphqlLoading env pluginAddress pluginType options;
         isError := Hook.isSubgraphError env pluginAddress pluginType options
                    || Hook.isGraphqlError env pluginAddress pluginType options |}
  else
    let graphqlHolders := Hook.graphqlHolders env pluginAddress pluginType options in
    (* l.254 *)
    parsedGraphqlData <-
      mapChecked
        (fun member =>
           let delegators :=
             map holder_address
                 (filter
                    (fun holder =>
                       negb (compareAddresses (Some (holder_address holder))
                                              (Some (holder_address member)))
                       && compareAddresses (Some (holder_delegates holder))
                                           (Some (holder_address member)))
                    graphqlHolders) in
           balance <- formatUnitsChecked (holder_balance member) decimals ;;
           votingPower <- formatUnitsChecked (holder_votes member) decimals ;;
           Returns (Token {| tk_address := holder_address member;
                             tk_balance := balance;
                             tk_votingPower := votingPower;
                             tk_delegatee := holder_delegates member;
                             tk_delegators := delegators |}))
        graphqlHolders ;;
    let combinedData :=
      if useSubgraph then
        if (List.length subgraphData =? 0)%nat && Js.gtNum userBalanceNumber 0 then
          [ Token {| tk_address := Js.asString address;
                     tk_balance := userBalanceNumber;
                     tk_votingPower := userBalanceNumber;
                     tk_delegatee := Js.asString address;
                     tk_delegators := [] |} ]
        else parsedSubgraphData
      else parsedGraphqlData in
    let sortedData :=
      match opt_sort opts with
      | Some key => Js.sort (sortDaoMembers (Some key) address) combinedData
      | None => combinedData
      end in
    let memberCount :=
      if useSubgraph then List.length sortedData
      else Js.nullish
             (option_map (fun g => totalHolders (response_holders g)) graphqlData)
             (List.length sortedData) in
    let searchTerm := opt_searchTerm opts in
    let filteredData :=
      if negb (Js.truthyString searchTerm) then sortedData
      else
        filter (fun member =>
                  Js.includes (Js.toLowerCase (memberAddress member))
                              (Js.toLowerCase (Js.asString searchTerm)))
               sortedData in
    Returns
      {| data := {| members := sortedData;
                    filteredMembers := filteredData;
                    daoToken := daoToken;
                    memberCount := memberCount |};
         isLoading := Hook.isSubgraphLoading env pluginAddress pluginType options
                      && Hook.isGraphqlLoading env pluginAddress pluginType options;
         isError := Hook.isSubgraphError env pluginAddress pluginType options
                    || Hook.isGraphqlError env pluginAddress pluginType options |}.

(** The decimals of the token, if it is known, are within what ethers
    accepts. *)
Definition decimalsAccepted (token : option Erc20TokenDetails) : bool :=
  match token with
  | Some t => (token_decimals t <=? 256)%nat
  | None => true
  end.

(** A 256-bit unsigned integer, the type of an ERC-20 balance. *)
Definition uint256 (v : Z) : Prop := (0 <= v < 2 ^ 256)%Z.

(** ** The explore page (src/packages/web-app/src/pages/explore.tsx) *)

Module Explore.

Definition existingDaos : list string :=
  [ "0x5aa80e80fd670393d625b70ec57b81226a274646";
    "0xa2e993c4fd68fda9e28405cb9d8411a09117a47c" ].

(** [s.slice(0, n)]: the first [n] code units of [s], or all of [s] when it
    has fewer. *)
Definition slice0 (n : nat) (s : string) : string := String.substring 0 n s.

(** The title of the list item of a DAO:
    [`DAO: ${isMobile ? dao.slice(0, 15) + '...' : dao}`]. *)
Definition title (isMobile : bool) (dao : string) : string :=
  "DAO: " ++ (if isMobile then slice0 15 dao ++ "..." else dao).

(** The titles of the items made by [existingDaos.map]. *)
Definition titles (isMobile : bool) : list string :=
  map (title isMobile) existingDaos.

End Explore.

(** ** Further vocabulary *)

(** The address an entry of the subgraph answer carries. *)
Definition sdkMemberAddress (member : SdkMember) : string :=
  match member with
  | SdkAddress a => a
  | SdkTokenVoting m => tvm_address m
  end.

(** Whether an entry of the subgraph answer is a structured voting member. *)
Definition isVotingMember (member : SdkMember) : bool :=
  match member with
  | SdkAddress _ => false
  | SdkTokenVoting _ => true
  end.

(** The options [o] with another search term. *)
Definition withSearchTerm (o : DaoMembersOptions) (term : option string)
  : DaoMembersOptions :=
  {| opt_searchTerm := term;
     opt_sort := opt_sort o;
     opt_page := opt_page o;
     opt_countOnly := opt_countOnly o;
     opt_memberList := opt_memberList o;
     opt_enabled := opt_enabled o |}.

(** [a] is ordered not after [b] by the comparator. *)
Definition notAfter (sortKey : option DaoMemberSort) (userAddress : option string)
    (a b : DaoMember) : Prop :=
  (sortDaoMembers sortKey userAddress a b <= 0)%Q.

(** The network names for which the graph index is not used. *)
Definition deniedNetwork (net : string) : Prop :=
  net = "arbitrum" \/ net = "base" \/ net = "zksyncSepolia".

(** ** Further sample environments *)

Module Cases.


(** A token with the usual 18 decimals. *)
Definition token18 : Erc20TokenDetails :=
  {| token_address := "0x72"; token_decimals := 18;
     token_name := "Std"; token_symbol := "STD" |}.

(** An environment for a token on a network, with the answers of the two
    queries, the raw balance of the connected wallet and the census hook. *)
Definition make (net : string) (token : Erc20TokenDetails)
    (graph : QueryResult TokenHoldersResponse)
    (subgraph : QueryResult (list SdkMember))
    (raw : Z)
    (census : list DaoMember -> string -> option PluginTypes ->
              DaoMembersOptions -> HookData) : Env :=
  {| useNetwork := net;
     useWallet := Some Sample.wallet;
     useDaoToken := fun _ => Some token;
     useTokenHolders := fun _ _ _ _ => graph;
     useMembers := fun _ _ _ => subgraph;
     useCensus3DaoMembers := census;
     CHAIN_METADATA := fun n => if (n =? "nowhere")%string then None else Some 1%nat;
     balanceOf := fun _ _ _ => Some [raw] |}.

Definition noCensus (holders : list DaoMember) (pluginAddress : string)
    (pluginType : option PluginTypes) (o : DaoMembersOptions) : HookData :=
  World.noEnvelope.





(** An 18-decimals token on a network without the graph index; the subgraph
    lists nobody, the wallet holds [raw] units. *)
Definition holding (raw : Z) : Env :=
  make "base" token18 (World.answer None false false)
       (World.answer (Some []) false false) raw noCensus.

(** A census hook that answers with the holders and the member list it is
    given, so that its arguments can be read off its answer. *)
Definition echoCensus (holders : list DaoMember) (pluginAddress : string)
    (pluginType : option PluginTypes) (o : DaoMembersOptions) : HookData :=
  {| data := {| members := holders;
                memberCount := List.length (Js.nullish (opt_memberList o) []);
                filteredMembers :=
                  map (fun a => Basic {| ms_address := a |})
                      (Js.nullish (opt_memberList o) []);
                daoToken := None |};
     isLoading := Js.nullish (opt_countOnly o) false;
     isError := Js.nullish (opt_enabled o) false |}.

Definition gasless : Env :=
  make "ethereum" World.token (World.answer None false false)
       (World.answer (Some [SdkAddress "0x01"]) false false) 0 echoCensus.

End Cases.

(** * Properties *)

(** ** Strings *)

Lemma includes_empty (s : string) : Js.includes s "" = true.
Proof. destruct s; reflexivity. Qed.

Lemma compare_lt_trans (s1 s2 s3 : string) :
  String.compare s1 s2 = Lt -> String.compare s2 s3 = Lt ->
  String.compare s1 s3 = Lt.
Proof.
  revert s2 s3.
  induction s1 as [|c1 s1 IH]; intros [|c2 s2] [|c3 s3]; simpl; try congruence.
  unfold Ascii.compare.
  destruct (N_of_ascii c1 ?= N_of_ascii c2)%N eqn:E12; try discriminate;
    destruct (N_of_ascii c2 ?= N_of_ascii c3)%N eqn:E23; try discriminate;
    intros H12 H23.
  - apply N.compare_eq_iff in E12, E23. rewrite E12, E23, N.compare_refl. eauto.
  - apply N.compare_eq_iff in E12. now rewrite E12, E23.
  - apply N.compare_eq_iff in E23. now rewrite <- E23, E12.
  - apply N.compare_lt_iff in E12, E23.
    assert (E13 : (N_of_ascii c1 ?= N_of_ascii c3)%N = Lt)
      by (apply N.compare_lt_iff; eapply N.lt_trans; eauto).
    now rewrite E13.
Qed.

(** [a > b] is a strict order on strings; its negation is transitive. *)
Lemma gt_false_trans (a b c : string) :
  Js.gt a b = false -> Js.gt b c = false -> Js.gt a c = false.
Proof.
  unfold Js.gt, String.ltb. intros Hab Hbc.
  destruct (String.compare c a) eqn:Hca; trivial.
  destruct (String.compare b a) eqn:Hba; try discriminate.
  - apply String.compare_eq_iff in Hba. subst b. now rewrite Hca in Hbc.
  - destruct (String.compare c b) eqn:Hcb; try discriminate.
    + apply String.compare_eq_iff in Hcb. subst c. congruence.
    + rewrite String.compare_antisym in Hba, Hcb.
      assert (Hab' : String.compare a b = Lt) by (destruct (String.compare a b); simpl in *; congruence).
      assert (Hbc' : String.compare b c = Lt) by (destruct (String.compare b c); simpl in *; congruence).
      pose proof (compare_lt_trans _ _ _ Hab' Hbc') as Hac.
      rewrite String.compare_antisym, Hac in Hca. discriminate.
Qed.

Lemma gt_asym (a b : string) : Js.gt a b = true -> Js.gt b a = false.
Proof.
  unfold Js.gt, String.ltb. rewrite String.compare_antisym.
  destruct (String.compare a b); simpl; congruence.
Qed.

(** ** Sorting *)

Section SortFacts.
Context {A : Type}.
Variable comparefn : A -> A -> Q.

Lemma insert_Permutation (x : A) (l : list A) :
  Permutation (Js.insert comparefn x l) (x :: l).
Proof.
  induction l as [|y l IH]; simpl.
  - apply Permutation_refl.
  - destruct (Qle_bool 0 (comparefn x y)).
    + eapply Permutation_trans; [apply perm_skip, IH | apply perm_swap].
    + apply Permutation_refl.
Qed.

Lemma fold_insert_Permutation (l acc : list A) :
  Permutation (fold_left (fun acc x => Js.insert comparefn x acc) l acc)
              (acc ++ l).
Proof.
  revert acc. induction l as [|x l IH]; intros acc; simpl.
  - rewrite app_nil_r. apply Permutation_refl.
  - eapply Permutation_trans; [apply IH|].
    eapply Permutation_trans;
      [apply Permutation_app_tail, insert_Permutation|].
    simpl. apply Permutation_cons_app. apply Permutation_refl.
Qed.

(** The sorted array holds the elements of the array it was given. *)
Lemma sort_Permutation (l : list A) : Permutation (Js.sort comparefn l) l.
Proof. apply (fold_insert_Permutation l []). Qed.

(** An element that compares below everything, and above which nothing
    else compares, is carried to the front. *)
Section Pinned.
Variable top : A -> bool.
Hypothesis top_first : forall a b, top a = true -> Qle_bool 0 (comparefn a b) = false.
Hypothesis top_stays :
  forall a b, top a = false -> top b = true -> Qle_bool 0 (comparefn a b) = true.

Lemma insert_top (x : A) (l : list A) :
  top x = true -> topHead top (Js.insert comparefn x l).
Proof.
  intros Hx. destruct l as [|y l]; simpl.
  - now exists x, [].
  - rewrite (top_first x y Hx). now exists x, (y :: l).
Qed.

Lemma insert_keeps_top (x : A) (l : list A) :
  topHead top l -> topHead top (Js.insert comparefn x l).
Proof.
  intros (m & rest & -> & Hm).
  destruct (top x) eqn:Hx.
  - now apply insert_top.
  - simpl. rewrite (top_stays x m Hx Hm).
    now exists m, (Js.insert comparefn x rest).
Qed.

Lemma fold_insert_top (l acc : list A) :
  topHead top acc \/ (exists m, In m l /\ top m = true) ->
  topHead top (fold_left (fun acc x => Js.insert comparefn x acc) l acc).
Proof.
  revert acc. induction l as [|x l IH]; intros acc H; simpl.
  - destruct H as [H|(m & [] & _)]. exact H.
  - apply IH. destruct H as [H|(m & [<-|Hin] & Hm)].
    + left. now apply insert_keeps_top.
    + left. now apply insert_top.
    + right. now exists m.
Qed.

Lemma sort_top (l : list A) :
  (exists m, In m l /\ top m = true) -> topHead top (Js.sort comparefn l).
Proof. intros H. apply fold_insert_top. now right. Qed.
End Pinned.
End SortFacts.

(** ** The comparator [sortDaoMembers] *)

(** [compareAddresses] on two present addresses is equality of their
    lower-case forms. *)
Lemma compareAddresses_Some (a b : string) :
  compareAddresses (Some a) (Some b) = true <-> Js.toLowerCase a = Js.toLowerCase b.
Proof. simpl. apply String.eqb_eq. Qed.

Lemma Qeq_bool_inject_Z_0 (z : Z) : Qeq_bool (inject_Z z) 0 = (z =? 0)%Z.
Proof.
  unfold Qeq_bool, inject_Z. cbn [Qnum Qden]. now rewrite Z.mul_1_r.
Qed.

Section Comparator.
Variable sortKey : option DaoMemberSort.
Variable userAddress : option string.

Let cmp := sortDaoMembers sortKey userAddress.

Lemma cmp_user_left (a b : DaoMember) :
  isConnectedUser userAddress a = true -> cmp a b = (-1)%Q.
Proof.
  unfold isConnectedUser, cmp, sortDaoMembers. intros ->. reflexivity.
Qed.

Lemma cmp_user_right (a b : DaoMember) :
  isConnectedUser userAddress a = false ->
  isConnectedUser userAddress b = true -> cmp a b = 1%Q.
Proof.
  unfold isConnectedUser, cmp, sortDaoMembers. intros -> ->. reflexivity.
Qed.

Lemma cmp_fallback (a b : DaoMember) :
  isConnectedUser userAddress a = false ->
  isConnectedUser userAddress b = false ->
  isTokenDaoMember a && isTokenDaoMember b = false ->
  cmp a b = if Js.gt (memberAddress a) (memberAddress b) then 1%Q else (-1)%Q.
Proof.
  unfold isConnectedUser, cmp, sortDaoMembers. intros -> -> H.
  destruct a, b; simpl in *; try reflexivity; discriminate.
Qed.

Lemma cmp_delegator_left (a b : TokenDaoMember) :
  isConnectedUser userAddress (Token a) = false ->
  isConnectedUser userAddress (Token b) = false ->
  isDelegator userAddress a = true -> cmp (Token a) (Token b) = (-1)%Q.
Proof.
  unfold isConnectedUser, isDelegator, cmp, sortDaoMembers.
  intros -> -> ->. reflexivity.
Qed.

Lemma cmp_delegator_right (a b : TokenDaoMember) :
  isConnectedUser userAddress (Token a) = false ->
  isConnectedUser userAddress (Token b) = false ->
  isDelegator userAddress a = false ->
  isDelegator userAddress b = true -> cmp (Token a) (Token b) = 1%Q.
Proof.
  unfold isConnectedUser, isDelegator, cmp, sortDaoMembers.
  intros -> -> -> ->. reflexivity.
Qed.

Lemma cmp_tokens (a b : TokenDaoMember) :
  isConnectedUser userAddress (Token a) = false ->
  isConnectedUser userAddress (Token b) = false ->
  isDelegator userAddress a = false ->
  isDelegator userAddress b = false ->
  cmp (Token a) (Token b) =
    match sortKey with
    | Some delegations =>
        if (Z.of_nat (List.length (tk_delegators b))
            =? Z.of_nat (List.length (tk_delegators a)))%Z
        then (tk_votingPower b - tk_votingPower a)%Q
        else inject_Z (Z.of_nat (List.length (tk_delegators b))
                       - Z.of_nat (List.length (tk_delegators a)))
    | _ => (tk_votingPower b - tk_votingPower a)%Q
    end.
Proof.
  unfold isConnectedUser, isDelegator, cmp, sortDaoMembers.
  intros -> -> -> ->. cbv beta iota zeta. cbn [orb].
  destruct sortKey as [[|]|]; try reflexivity.
  rewrite Qeq_bool_inject_Z_0.
  destruct (Z.eqb_spec (Z.of_nat (List.length (tk_delegators b))
                        - Z.of_nat (List.length (tk_delegators a))) 0);
    destruct (Z.eqb_spec (Z.of_nat (List.length (tk_delegators b)))
                         (Z.of_nat (List.length (tk_delegators a))));
    try reflexivity; lia.
Qed.

(** The connected user is carried to the front of the sorted list. *)
Lemma sort_user_head (l : list DaoMember) :
  (exists m, In m l /\ isConnectedUser userAddress m = true) ->
  exists first rest,
    Js.sort cmp l = first :: rest /\ isConnectedUser userAddress first = true.
Proof.
  apply (sort_top cmp (isConnectedUser userAddress)).
  - intros a b Ha. now rewrite (cmp_user_left a b Ha).
  - intros a b Ha Hb. now rewrite (cmp_user_right a b Ha Hb).
Qed.

(** Two members the comparator orders strictly come out in that order. *)
Lemma sort_pair (a b : DaoMember) :
  (cmp a b < 0)%Q -> (0 < cmp b a)%Q ->
  Js.sort cmp [a; b] = [a; b] /\ Js.sort cmp [b; a] = [a; b].
Proof.
  intros Hab Hba. unfold Js.sort. simpl.
  assert (E1 : Qle_bool 0 (cmp b a) = true)
    by (apply Qle_bool_iff; now apply Qlt_le_weak).
  assert (E2 : Qle_bool 0 (cmp a b) = false).
  { destruct (Qle_bool 0 (cmp a b)) eqn:E; trivial.
    apply Qle_bool_iff in E. exfalso. apply (Qlt_irrefl 0).
    eapply Qle_lt_trans; eauto. }
  now rewrite E1, E2.
Qed.
End Comparator.

(** ** Claims about the sort *)

(** C4. A list that holds a member whose address is, up to case, the address
    of the connected wallet is sorted with that member in front, whatever the
    sort key: the first element of the sorted list carries the connected
    address, and it is that very member when no other element carries it. *)
Theorem sort_connected_user_first
    (sortKey : option DaoMemberSort) (connectedAddress : string)
    (l : list DaoMember) (m : DaoMember) :
  In m l ->
  Js.toLowerCase (memberAddress m) = Js.toLowerCase connectedAddress ->
  exists first rest,
    Js.sort (sortDaoMembers sortKey (Some connectedAddress)) l = first :: rest
    /\ Js.toLowerCase (memberAddress first) = Js.toLowerCase connectedAddress
    /\ ((forall x, In x l ->
                   Js.toLowerCase (memberAddress x) = Js.toLowerCase connectedAddress ->
                   x = m) ->
        first = m).
Proof.
  intros Hin Hm.
  destruct (sort_user_head sortKey (Some connectedAddress) l) as (first & rest & E & Hf).
  { exists m. split; trivial. now apply compareAddresses_Some. }
  exists first, rest. apply compareAddresses_Some in Hf.
  repeat split; trivial.
  intros Huniq. apply Huniq; trivial.
  apply (Permutation_in first
           (sort_Permutation (sortDaoMembers sortKey (Some connectedAddress)) l)).
  rewrite E. now left.
Qed.

Lemma sort_connected_user_first_witness :
  exists first rest,
    Js.sort (sortDaoMembers (Some delegations) (Some Sample.wallet)) Sample.board
    = first :: rest
    /\ Js.toLowerCase (memberAddress first) = Js.toLowerCase Sample.wallet
    /\ ((forall x, In x Sample.board ->
                   Js.toLowerCase (memberAddress x) = Js.toLowerCase Sample.wallet ->
                   x = Sample.me) ->
        first = Sample.me).
Proof.
  apply (sort_connected_user_first (Some delegations) Sample.wallet
                                   Sample.board Sample.me).
  - simpl. auto.
  - reflexivity.
Defined.

(** C5. With the key ["delegations"], of two Token members that are neither
    the connected user nor delegators of the connected user, the one with
    strictly more delegators is ordered before the other; with as many
    delegators, the one with strictly more voting power is.  Either way the
    comparator is negative on (a, b), positive on (b, a), and a two-element
    array comes out as [a; b]. *)
Theorem sort_delegations_order
    (userAddress : option string) (a b : TokenDaoMember) :
  isConnectedUser userAddress (Token a) = false ->
  isConnectedUser userAddress (Token b) = false ->
  isDelegator userAddress a = false ->
  isDelegator userAddress b = false ->
  (List.length (tk_delegators b) < List.length (tk_delegators a))%nat
  \/ (List.length (tk_delegators b) = List.length (tk_delegators a)
      /\ (tk_votingPower b < tk_votingPower a)%Q) ->
  let cmp := sortDaoMembers (Some delegations) userAddress in
  (cmp (Token a) (Token b) < 0)%Q
  /\ (0 < cmp (Token b) (Token a))%Q
  /\ Js.sort cmp [Token a; Token b] = [Token a; Token b]
  /\ Js.sort cmp [Token b; Token a] = [Token a; Token b].
Proof.
  intros Ua Ub Da Db H cmp.
  assert (Hab : (cmp (Token a) (Token b) < 0)%Q /\ (0 < cmp (Token b) (Token a))%Q).
  { unfold cmp.
    rewrite (cmp_tokens _ _ a b Ua Ub Da Db), (cmp_tokens _ _ b a Ub Ua Db Da).
    destruct H as [Hlen|[Hlen Hvp]].
    - destruct (Z.eqb_spec (Z.of_nat (List.length (tk_delegators b)))
                           (Z.of_nat (List.length (tk_delegators a)))); [lia|].
      destruct (Z.eqb_spec (Z.of_nat (List.length (tk_delegators a)))
                           (Z.of_nat (List.length (tk_delegators b)))); [lia|].
      split.
      + change 0%Q with (inject_Z 0). rewrite <- Zlt_Qlt. lia.
      + change 0%Q with (inject_Z 0). rewrite <- Zlt_Qlt. lia.
    - rewrite Hlen, Z.eqb_refl. split; lra. }
  destruct Hab as [Hab Hba]. repeat split; trivial; now apply sort_pair.
Qed.

Lemma sort_delegations_order_witness :
  let cmp := sortDaoMembers (Some delegations) (Some Sample.wallet) in
  (cmp (Token Sample.carol) (Token Sample.dave) < 0)%Q
  /\ (0 < cmp (Token Sample.dave) (Token Sample.carol))%Q
  /\ Js.sort cmp [Token Sample.carol; Token Sample.dave]
     = [Token Sample.carol; Token Sample.dave]
  /\ Js.sort cmp [Token Sample.dave; Token Sample.carol]
     = [Token Sample.carol; Token Sample.dave].
Proof.
  apply (sort_delegations_order (Some Sample.wallet) Sample.carol Sample.dave);
    try reflexivity.
  left. simpl. lia.
Defined.


Section ComparatorOrder.
Variable sortKey : option DaoMemberSort.
Variable userAddress : option string.

Let cmp := sortDaoMembers sortKey userAddress.


Lemma cmp_trans_basic (a b c : MultisigDaoMember) :
  (cmp (Basic a) (Basic b) <= 0)%Q -> (cmp (Basic b) (Basic c) <= 0)%Q ->
  (cmp (Basic a) (Basic c) <= 0)%Q.
Proof.
  unfold cmp.
  destruct (isConnectedUser userAddress (Basic a)) eqn:Ua.
  { intros _ _. rewrite cmp_user_left by trivial. lra. }
  destruct (isConnectedUser userAddress (Basic b)) eqn:Ub.
  { rewrite (cmp_user_right _ _ (Basic a) (Basic b)) by trivial. lra. }
  destruct (isConnectedUser userAddress (Basic c)) eqn:Uc.
  { intros _. rewrite (cmp_user_right _ _ (Basic b) (Basic c)) by trivial. lra. }
  rewrite !cmp_fallback by trivial. simpl.
  destruct (Js.gt (ms_address a) (ms_address b)) eqn:Gab; [lra|].
  destruct (Js.gt (ms_address b) (ms_address c)) eqn:Gbc; [lra|].
  rewrite (gt_false_trans _ _ _ Gab Gbc). lra.
Qed.

Lemma cmp_trans_token (a b c : TokenDaoMember) :
  (cmp (Token a) (Token b) <= 0)%Q -> (cmp (Token b) (Token c) <= 0)%Q ->
  (cmp (Token a) (Token c) <= 0)%Q.
Proof.
  unfold cmp.
  destruct (isConnectedUser userAddress (Token a)) eqn:Ua.
  { intros _ _. rewrite cmp_user_left by trivial. lra. }
  destruct (isConnectedUser userAddress (Token b)) eqn:Ub.
  { rewrite (cmp_user_right _ _ (Token a) (Token b)) by trivial. lra. }
  destruct (isConnectedUser userAddress (Token c)) eqn:Uc.
  { intros _. rewrite (cmp_user_right _ _ (Token b) (Token c)) by trivial. lra. }
  destruct (isDelegator userAddress a) eqn:Da.
  { intros _ _. rewrite cmp_delegator_left by trivial. lra. }
  destruct (isDelegator userAddress b) eqn:Db.
  { rewrite (cmp_delegator_right _ _ a b) by trivial. lra. }
  destruct (isDelegator userAddress c) eqn:Dc.
  { intros _. rewrite (cmp_delegator_right _ _ b c) by trivial. lra. }
  rewrite !cmp_tokens by trivial.
  destruct sortKey as [[|]|]; try lra.
  destruct (Z.eqb_spec (Z.of_nat (List.length (tk_delegators b)))
                       (Z.of_nat (List.length (tk_delegators a))));
    destruct (Z.eqb_spec (Z.of_nat (List.length (tk_delegators c)))
                         (Z.of_nat (List.length (tk_delegators b))));
    destruct (Z.eqb_spec (Z.of_nat (List.length (tk_delegators c)))
                         (Z.of_nat (List.length (tk_delegators a))));
    try lia; try lra;
    change 0%Q with (inject_Z 0); rewrite <- ?Zle_Qle; intros; try lia.
Qed.
End ComparatorOrder.



(** ** The branches of the hook *)

Section Branches.
Variable env : Env.
Variable pluginAddress : string.
Variable pluginType : option PluginTypes.
Variable options : option DaoMembersOptions.

(** [opts?.enabled || true] is [true] whatever the options say. *)
Lemma enabled_always : Hook.enabled options = true.
Proof.
  unfold Hook.enabled, Hook.opts.
  destruct options as [o|]; simpl; trivial.
  now destruct (opt_enabled o) as [[|]|].
Qed.

Lemma enableCensus3_gasless :
  Hook.enableCensus3 pluginType options = true
  <-> pluginType = Some GaslessPluginName.
Proof.
  unfold Hook.enableCensus3, Hook.isGaslessBased. rewrite enabled_always. simpl.
  destruct pluginType as [[| |]|]; split; congruence.
Qed.

Lemma enableCensus3_not_gasless :
  pluginType <> Some GaslessPluginName ->
  Hook.enableCensus3 pluginType options = false.
Proof.
  intros H. destruct (Hook.enableCensus3 pluginType options) eqn:E; trivial.
  now apply enableCensus3_gasless in E.
Qed.

Lemma useDaoMembers_gasless :
  pluginType = Some GaslessPluginName ->
  useDaoMembers env pluginAddress pluginType options
  = Hook.census3Data env pluginAddress pluginType options.
Proof.
  intros H. unfold useDaoMembers. rewrite enabled_always. simpl.
  now rewrite (proj2 enableCensus3_gasless H).
Qed.

Lemma useDaoMembers_countOnly :
  Hook.enableCensus3 pluginType options = false ->
  Hook.countOnly options = true ->
  useDaoMembers env pluginAddress pluginType options
  = {| data := {| members := []; filteredMembers := [];
                  daoToken := Hook.daoToken env pluginAddress;
                  memberCount :=
                    Hook.countOnlyMemberCount env pluginAddress pluginType options |};
       isLoading := Hook.isSubgraphLoading env pluginAddress pluginType options
                    && Hook.isGraphqlLoading env pluginAddress pluginType options;
       isError := Hook.isSubgraphError env pluginAddress pluginType options
                  || Hook.isGraphqlError env pluginAddress pluginType options |}.
Proof.
  intros G C. unfold useDaoMembers. rewrite enabled_always, G, C. reflexivity.
Qed.

Lemma useDaoMembers_full :
  Hook.enableCensus3 pluginType options = false ->
  Hook.countOnly options = false ->
  useDaoMembers env pluginAddress pluginType options
  = {| data := {| members := Hook.sortedData env pluginAddress pluginType options;
                  filteredMembers :=
                    Hook.filteredData env pluginAddress pluginType options;
                  daoToken := Hook.daoToken env pluginAddress;
                  memberCount :=
                    Hook.memberCount env pluginAddress pluginType options |};
       isLoading := Hook.isSubgraphLoading env pluginAddress pluginType options
                    && Hook.isGraphqlLoading env pluginAddress pluginType options;
       isError := Hook.isSubgraphError env pluginAddress pluginType options
                  || Hook.isGraphqlError env pluginAddress pluginType options |}.
Proof.
  intros G C. unfold useDaoMembers. rewrite enabled_always, G, C. reflexivity.
Qed.
End Branches.

(** ** Claims about the envelope *)

(** C1 does not hold of the code: [enabled] is computed as
    [opts?.enabled || true], which is [true] also for [enabled: false], so
    the guard [if (!enabled)] never fires.  Called with [{enabled: false}]
    on a multisig DAO whose subgraph lists one signer, the hook returns that
    signer and the count 1. *)
Theorem enabled_false_is_ignored :
  let r := useDaoMembers World.multisig "0x50" (Some MultisigPlugin)
                         (World.only None (Some false) None) in
  members (data r) = [Basic {| ms_address := "0x01" |}]
  /\ filteredMembers (data r) = [Basic {| ms_address := "0x01" |}]
  /\ memberCount (data r) = 1%nat
  /\ useDaoMembers World.multisig "0x50" (Some MultisigPlugin)
                   (World.only None (Some false) None)
     = useDaoMembers World.multisig "0x50" (Some MultisigPlugin)
                     (World.only None (Some true) None).
Proof. cbv zeta. repeat split; reflexivity. Qed.

(** *** When the hook returns *)

Lemma formatUnitsChecked_accepted (value : Z) (unitName : option nat) :
  (Js.nullish unitName 18 <= 256)%nat ->
  formatUnitsChecked value unitName = Returns (formatUnits value unitName).
Proof.
  intros H. unfold formatUnitsChecked.
  destruct (Nat.ltb_spec 256 (Js.nullish unitName 18%nat)); [lia | reflexivity].
Qed.

Lemma formatUnitsChecked_rejected (value : Z) (unitName : option nat) :
  (256 < Js.nullish unitName 18)%nat ->
  formatUnitsChecked value unitName = Throws InvalidDecimalSize.
Proof.
  intros H. unfold formatUnitsChecked.
  destruct (Nat.ltb_spec 256 (Js.nullish unitName 18%nat)); [reflexivity | lia].
Qed.

Lemma mapChecked_returns {A B : Type} (f : A -> Outcome B) (g : A -> B)
    (l : list A) :
  (forall x, f x = Returns (g x)) -> mapChecked f l = Returns (map g l).
Proof.
  intros H. induction l as [|x l IH]; simpl; trivial. now rewrite H, IH.
Qed.

Lemma decimalsAccepted_default (token : option Erc20TokenDetails) (d : nat) :
  decimalsAccepted token = true -> (d <= 256)%nat ->
  (Js.nullish (option_map token_decimals token) d <= 256)%nat.
Proof.
  destruct token as [t|]; simpl; trivial. intros H _. now apply Nat.leb_le.
Qed.

Lemma decimalsRejected_default (token : option Erc20TokenDetails) (d : nat) :
  decimalsAccepted token = false ->
  (256 < Js.nullish (option_map token_decimals token) d)%nat.
Proof.
  destruct token as [t|]; simpl; [|discriminate]. intros H.
  now apply Nat.leb_gt.
Qed.

Lemma sdkToDaoMemberChecked_accepted (member : SdkMember)
    (token : option Erc20TokenDetails) :
  decimalsAccepted token = true ->
  sdkToDaoMemberChecked member (option_map token_decimals token)
  = Returns (sdkToDaoMember member (option_map token_decimals token)).
Proof.
  intros H. destruct member as [a|m]; trivial.
  unfold sdkToDaoMemberChecked, sdkToDaoMember.
  rewrite !formatUnitsChecked_accepted
    by (apply (decimalsAccepted_default token 0%nat); [trivial | lia]).
  reflexivity.
Qed.

Section Returning.
Variable env : Env.
Variable pluginAddress : string.
Variable pluginType : option PluginTypes.
Variable options : option DaoMembersOptions.

(** With decimals that ethers accepts and a network that has its entry, the
    hook returns, and it returns the envelope [useDaoMembers] gives. *)
Lemma checked_returns (id : nat) :
  decimalsAccepted (useDaoToken env pluginAddress) = true ->
  CHAIN_METADATA env (useNetwork env) = Some id ->
  useDaoMembersChecked env pluginAddress pluginType options
  = Returns (useDaoMembers env pluginAddress pluginType options).
Proof.
  intros D C. unfold useDaoMembersChecked. cbv zeta.
  rewrite (mapChecked_returns _
             (fun member =>
                sdkToDaoMember member
                  (option_map token_decimals (useDaoToken env pluginAddress))))
    by (intros m; now apply sdkToDaoMemberChecked_accepted).
  cbn [bind]. rewrite C. cbn [bind].
  rewrite formatUnitsChecked_accepted
    by (apply decimalsAccepted_default; [trivial | lia]).
  cbn [bind]. unfold useDaoMembers.
  destruct (negb (Hook.enabled options)); trivial.
  destruct (Hook.enableCensus3 pluginType options); trivial.
  destruct (Hook.countOnly options); trivial.
  rewrite (mapChecked_returns _
             (fun member =>
                Token {| tk_address := holder_address member;
                         tk_balance :=
                           formatUnits (holder_balance member)
                             (option_map token_decimals (useDaoToken env pluginAddress));
                         tk_votingPower :=
                           formatUnits (holder_votes member)
                             (option_map token_decimals (useDaoToken env pluginAddress));
                         tk_delegatee := holder_delegates member;
                         tk_delegators :=
                           map holder_address
                             (filter
                                (fun holder =>
                                   negb (compareAddresses
                                           (Some (holder_address holder))
                                           (Some (holder_address member)))
                                   && compareAddresses
                                        (Some (holder_delegates holder))
                                        (Some (holder_address member)))
                                (Hook.graphqlHolders env pluginAddress pluginType
                                                     options)) |})).
  - cbn [bind].
    unfold Hook.sortedData, Hook.filteredData, Hook.memberCount,
      Hook.sortedData, Hook.getCombinedData, Hook.userBalanceNumber,
      Hook.userBalance, Hook.parsedGraphqlData, Hook.parsedSubgraphData,
      Hook.searchTerm, Hook.daoToken, Hook.address, Hook.network,
      CHAIN_METADATA_id.
    rewrite C. reflexivity.
  - intros m.
    rewrite !formatUnitsChecked_accepted
      by (apply decimalsAccepted_default; [trivial | lia]).
    reflexivity.
Qed.

(** With decimals above 256, or on a network without its entry, an
    exception escapes the hook. *)
Lemma checked_throws :
  decimalsAccepted (useDaoToken env pluginAddress) = false
  \/ CHAIN_METADATA env (useNetwork env) = None ->
  exists e, useDaoMembersChecked env pluginAddress pluginType options = Throws e.
Proof.
  intros H. unfold useDaoMembersChecked. cbv zeta.
  destruct (mapChecked _ (Hook.subgraphData env pluginAddress pluginType options))
    as [parsed|e]; [|now exists e].
  cbn [bind].
  destruct (CHAIN_METADATA env (useNetwork env)) as [id|];
    [|now exists ChainUndefined].
  cbn [bind]. destruct H as [H|H]; [|discriminate].
  rewrite formatUnitsChecked_rejected by (now apply decimalsRejected_default).
  now exists InvalidDecimalSize.
Qed.

Lemma checked_returns_iff :
  (exists r, useDaoMembersChecked env pluginAddress pluginType options = Returns r)
  <-> decimalsAccepted (useDaoToken env pluginAddress) = true
      /\ CHAIN_METADATA env (useNetwork env) <> None.
Proof.
  split.
  - intros (r & E).
    destruct (decimalsAccepted (useDaoToken env pluginAddress)) eqn:D.
    + split; trivial. intros C.
      destruct checked_throws as (e & T); [now right | congruence].
    + destruct checked_throws as (e & T); [now left | congruence].
  - intros (D & C).
    destruct (CHAIN_METADATA env (useNetwork env)) as [id|] eqn:E; [|congruence].
    eexists. now apply (checked_returns id).
Qed.

Lemma checked_value (r : HookData) :
  useDaoMembersChecked env pluginAddress pluginType options = Returns r ->
  r = useDaoMembers env pluginAddress pluginType options.
Proof.
  intros E.
  destruct (proj1 checked_returns_iff (ex_intro _ r E)) as (D & C).
  destruct (CHAIN_METADATA env (useNetwork env)) as [id|] eqn:X; [|congruence].
  rewrite (checked_returns id D X) in E. congruence.
Qed.
End Returning.

(** C8. A count-only call that is not gasless returns empty [members] and
    [filteredMembers] and the DAO token; its count is the number of entries
    of the answer of the subgraph query (no entry while it has not answered)
    when the subgraph path is active, and otherwise the total the graph
    index reports (0 while it has reported nothing). *)
Theorem countOnly_envelope
    (env : Env) (pluginAddress : string) (pluginType : option PluginTypes)
    (o : DaoMembersOptions) :
  opt_countOnly o = Some true ->
  pluginType <> Some GaslessPluginName ->
  let r := useDaoMembers env pluginAddress pluginType (Some o) in
  members (data r) = []
  /\ filteredMembers (data r) = []
  /\ daoToken (data r) = useDaoToken env pluginAddress
  /\ (Hook.useSubgraph env pluginAddress pluginType (Some o) = true ->
      memberCount (data r)
      = match q_data (useMembers env pluginAddress pluginType true) with
        | Some entries => List.length entries
        | None => 0%nat
        end)
  /\ (Hook.useSubgraph env pluginAddress pluginType (Some o) = false ->
      memberCount (data r)
      = match q_data (useTokenHolders env (useNetwork env)
                        (option_map token_address (useDaoToken env pluginAddress))
                        (opt_page o)
                        (Hook.useGraphql env pluginAddress pluginType (Some o))) with
        | Some g => totalHolders (response_holders g)
        | None => 0%nat
        end).
Proof.
  intros C G. cbv zeta. rewrite useDaoMembers_countOnly.
  - simpl. split; [reflexivity|]. split; [reflexivity|].
    split; [reflexivity|]. split.
    + intros U. unfold Hook.countOnlyMemberCount. rewrite U.
      unfold Hook.parsedSubgraphData, Hook.subgraphData, Hook.membersQuery.
      rewrite length_map, U, enabled_always. simpl.
      now destruct (q_data (useMembers env pluginAddress pluginType true)).
    + intros U. unfold Hook.countOnlyMemberCount. rewrite U.
      unfold Hook.graphqlData, Hook.tokenHoldersQuery, Hook.network,
        Hook.daoToken, Hook.opts. simpl.
      now destruct (q_data _).
  - now apply enableCensus3_not_gasless.
  - unfold Hook.countOnly, Hook.opts. simpl. now rewrite C.
Qed.

Lemma countOnly_envelope_witness :
  let o := {| opt_searchTerm := None; opt_sort := None; opt_page := None;
              opt_countOnly := Some true; opt_memberList := None;
              opt_enabled := None |} in
  let graph := useDaoMembers World.indexed "0x50" (Some TokenVotingPlugin) (Some o) in
  let subgraph := useDaoMembers World.listed "0x50" (Some TokenVotingPlugin) (Some o) in
  (members (data graph) = [] /\ filteredMembers (data graph) = []
   /\ daoToken (data graph) = Some World.token
   /\ memberCount (data graph) = 40%nat)
  /\ (members (data subgraph) = [] /\ filteredMembers (data subgraph) = []
      /\ memberCount (data subgraph) = 2%nat).
Proof.
  cbv zeta. split.
  - destruct (countOnly_envelope World.indexed "0x50" (Some TokenVotingPlugin)
                {| opt_searchTerm := None; opt_sort := None; opt_page := None;
                   opt_countOnly := Some true; opt_memberList := None;
                   opt_enabled := None |} eq_refl)
      as (Hm & Hf & Ht & _ & Hc).
    + discriminate.
    + split; [exact Hm|]. split; [exact Hf|]. split; [exact Ht|].
      exact (Hc eq_refl).
  - destruct (countOnly_envelope World.listed "0x50" (Some TokenVotingPlugin)
                {| opt_searchTerm := None; opt_sort := None; opt_page := None;
                   opt_countOnly := Some true; opt_memberList := None;
                   opt_enabled := None |} eq_refl)
      as (Hm & Hf & _ & Hs & _).
    + discriminate.
    + split; [exact Hm|]. split; [exact Hf|]. exact (Hs eq_refl).
Defined.




(** ** The search filter *)

Lemma filter_all {A : Type} (f : A -> bool) (l : list A) :
  (forall x, f x = true) -> filter f l = l.
Proof.
  intros H. induction l as [|x l IH]; simpl; trivial. now rewrite H, IH.
Qed.

(** C7. On the full (not count-only, not gasless) path [filteredMembers]
    holds members of [members] only: with a search term it is [members]
    restricted to the addresses that contain the term, the case ignored on
    both sides, and without one it is [members]. *)
Theorem filteredMembers_restricts_members
    (env : Env) (pluginAddress : string) (pluginType : option PluginTypes)
    (options : option DaoMembersOptions) :
  Hook.countOnly options = false ->
  pluginType <> Some GaslessPluginName ->
  let r := useDaoMembers env pluginAddress pluginType options in
  filteredMembers (data r)
  = match Hook.searchTerm options with
    | Some term =>
        filter (fun member =>
                  Js.includes (Js.toLowerCase (memberAddress member))
                              (Js.toLowerCase term))
               (members (data r))
    | None => members (data r)
    end
  /\ incl (filteredMembers (data r)) (members (data r)).
Proof.
  intros C G. cbv zeta.
  rewrite useDaoMembers_full by (trivial; now apply enableCensus3_not_gasless).
  simpl. unfold Hook.filteredData.
  destruct (Hook.searchTerm options) as [[|c term]|]; simpl.
  - split.
    + symmetry. apply filter_all. intros x. apply includes_empty.
    + apply incl_refl.
  - split; trivial. intros x Hx. now apply filter_In in Hx.
  - split; trivial. apply incl_refl.
Qed.

Lemma filteredMembers_restricts_members_witness :
  let r := useDaoMembers World.listed "0x50" (Some TokenVotingPlugin)
                         (World.only None None (Some "0Xab")) in
  let r' := useDaoMembers World.listed "0x50" (Some TokenVotingPlugin)
                          (World.only None None (Some "B01")) in
  members (data r) = [Sample.basic "0xAB01"; Sample.basic "0x1234"]
  /\ filteredMembers (data r) = [Sample.basic "0xAB01"]
  /\ incl (filteredMembers (data r)) (members (data r))
  /\ filteredMembers (data r') = [Sample.basic "0xAB01"].
Proof.
  cbv zeta.
  destruct (filteredMembers_restricts_members
              World.listed "0x50" (Some TokenVotingPlugin)
              (World.only None None (Some "0Xab")) eq_refl)
    as (Hf & Hincl); [discriminate|].
  destruct (filteredMembers_restricts_members
              World.listed "0x50" (Some TokenVotingPlugin)
              (World.only None None (Some "B01")) eq_refl)
    as (Hf' & _); [discriminate|].
  split; [reflexivity|]. split; [rewrite Hf; reflexivity|].
  split; [exact Hincl|]. rewrite Hf'. reflexivity.
Defined.

(** ** Normalization of the graph-index holders *)

(** C3. The member made from a holder of the graph-index page carries, as
    its delegators, the addresses (in page order) of the holders of that page
    whose address differs, the case ignored, from its own and whose
    [delegates] field equals, the case ignored, its address. *)
Theorem graphql_delegators
    (env : Env) (pluginAddress : string) (pluginType : option PluginTypes)
    (options : option DaoMembersOptions) (i : nat) (h : TokenHolder) :
  nth_error (Hook.graphqlHolders env pluginAddress pluginType options) i = Some h ->
  exists t,
    nth_error (Hook.parsedGraphqlData env pluginAddress pluginType options) i
    = Some (Token t)
    /\ tk_address t = holder_address h
    /\ tk_delegatee t = holder_delegates h
    /\ tk_delegators t
       = map holder_address
           (filter (fun other =>
                      negb (Js.toLowerCase (holder_address other)
                            =? Js.toLowerCase (holder_address h))%string
                      && (Js.toLowerCase (holder_delegates other)
                          =? Js.toLowerCase (holder_address h))%string)
                   (Hook.graphqlHolders env pluginAddress pluginType options))
    /\ (forall d,
           In d (tk_delegators t) <->
           exists other,
             In other (Hook.graphqlHolders env pluginAddress pluginType options)
             /\ holder_address other = d
             /\ Js.toLowerCase (holder_address other)
                <> Js.toLowerCase (holder_address h)
             /\ Js.toLowerCase (holder_delegates other)
                = Js.toLowerCase (holder_address h)).
Proof.
  intros Hi. unfold Hook.parsedGraphqlData. rewrite nth_error_map, Hi. simpl.
  eexists. split; [reflexivity|]. simpl.
  split; [reflexivity|]. split; [reflexivity|]. split; [reflexivity|].
  intros d. rewrite in_map_iff. split.
  - intros (other & <- & Hin). apply filter_In in Hin. destruct Hin as (Hin & Hb).
    apply andb_true_iff in Hb. destruct Hb as (Hne & Heq).
    exists other. repeat split; trivial.
    + apply negb_true_iff in Hne. now apply String.eqb_neq.
    + now apply String.eqb_eq.
  - intros (other & Hin & <- & Hne & Heq). exists other. split; trivial.
    apply filter_In. split; trivial. apply andb_true_iff. split.
    + apply negb_true_iff. now apply String.eqb_neq.
    + now apply String.eqb_eq.
Qed.

Lemma graphql_delegators_witness :
  exists t,
    nth_error (Hook.parsedGraphqlData World.indexed "0x50"
                 (Some TokenVotingPlugin) None) 1
    = Some (Token t)
    /\ tk_address t = "0xB2"
    /\ tk_delegators t = ["0xA1"].
Proof.
  destruct (graphql_delegators World.indexed "0x50" (Some TokenVotingPlugin)
              None 1 World.holderB eq_refl)
    as (t & Hnth & Haddr & _ & Hdel & _).
  exists t. split; [exact Hnth|]. split; [exact Haddr|].
  rewrite Hdel. reflexivity.
Defined.

(** ** The fall-back member *)

Section Fallback.
Variable env : Env.
Variable pluginAddress : string.
Variable pluginType : option PluginTypes.
Variable options : option DaoMembersOptions.

Lemma roundHalfEven_nonneg (num den : Z) :
  (0 <= num)%Z -> (0 < den)%Z -> (0 <= Double.roundHalfEven num den)%Z.
Proof.
  intros Hn Hd. unfold Double.roundHalfEven.
  assert (0 <= num / den)%Z by (apply Z.div_pos; lia).
  destruct (2 * (num mod den) <? den)%Z; [lia|].
  destruct (den <? 2 * (num mod den))%Z; [lia|].
  destruct (Z.even (num / den)); lia.
Qed.

Lemma pow2_pos (e : Z) : (0 < Double.pow2 e)%Z.
Proof. unfold Double.pow2. apply Z.pow_pos_nonneg; lia. Qed.

Lemma roundPos_nonneg (n d : positive) : (0 <= Double.roundPos n d)%Q.
Proof.
  unfold Double.roundPos. rewrite Qred_correct.
  unfold Qle. cbn [Qnum Qden]. rewrite Z.mul_1_r.
  apply Z.mul_nonneg_nonneg.
  - apply roundHalfEven_nonneg.
    + pose proof (pow2_pos (- (Z.max (Double.exponent (Z.pos n) (Z.pos d)) (-1022) - 52))).
      lia.
    + pose proof (pow2_pos (Z.max (Double.exponent (Z.pos n) (Z.pos d)) (-1022) - 52)).
      lia.
  - pose proof (pow2_pos (Z.max (Double.exponent (Z.pos n) (Z.pos d)) (-1022) - 52)).
    lia.
Qed.

(** Rounding gives a positive double to positive rationals only. *)
Lemma round_pos (x : Q) : (0 < Double.round x)%Q -> (0 < Qnum x)%Z.
Proof.
  unfold Double.round. destruct (Qnum x) as [|n|n]; intros H.
  - exfalso. revert H. apply Qlt_irrefl.
  - lia.
  - exfalso. pose proof (roundPos_nonneg n (Qden x)) as P.
    apply (Qlt_irrefl 0). eapply Qlt_le_trans; [exact H|].
    apply Qopp_le_compat in P. exact P.
Qed.

Lemma formatUnits_pos (raw : Z) (d : option nat) :
  (0 < formatUnits raw d)%Q -> (0 < raw)%Z.
Proof. unfold formatUnits. intros H. now apply round_pos in H. Qed.

(** A positive [userBalanceNumber] comes from an enabled read that has
    answered: the wallet is connected, the token is known, and the call is
    neither count-only nor gasless. *)
Lemma positive_balance_inv :
  (0 < Hook.userBalanceNumber env pluginAddress pluginType options)%Q ->
  exists wallet token raw rest,
    useWallet env = Some wallet
    /\ useDaoToken env pluginAddress = Some token
    /\ balanceOf env (Some (token_address token)) (Some wallet)
                 (CHAIN_METADATA_id env (useNetwork env))
       = Some (raw :: rest)
    /\ (0 < raw)%Z
    /\ Hook.userBalanceNumber env pluginAddress pluginType options
       = formatUnits raw (Some (token_decimals token))
    /\ Hook.countOnly options = false
    /\ Hook.enableCensus3 pluginType options = false.
Proof.
  unfold Hook.userBalanceNumber, Hook.userBalance, useReadContracts.
  destruct (Hook.balanceQueryEnabled env pluginAddress pluginType options) eqn:Q.
  - unfold Hook.balanceQueryEnabled in Q.
    repeat (apply andb_true_iff in Q; destruct Q as [Q ?]).
    unfold Hook.address, Hook.daoToken, Hook.network in *.
    destruct (useWallet env) as [wallet|]; try discriminate.
    destruct (useDaoToken env pluginAddress) as [token|]; try discriminate.
    simpl.
    destruct (balanceOf env (Some (token_address token)) (Some wallet)
                        (CHAIN_METADATA_id env (useNetwork env)))
      as [[|raw rest]|] eqn:B; simpl; intros P;
      try (apply formatUnits_pos in P; lia).
    exists wallet, token, raw, rest.
    repeat split; trivial.
    + now apply formatUnits_pos in P.
    + now apply negb_true_iff.
    + now apply negb_true_iff.
  - simpl. intros P. apply formatUnits_pos in P. lia.
Qed.

Lemma gtNum_pos (x : Q) : (0 < x)%Q -> Js.gtNum x 0 = true.
Proof.
  intros H. unfold Js.gtNum. apply negb_true_iff.
  destruct (Qle_bool x 0) eqn:E; trivial.
  apply Qle_bool_iff in E. lra.
Qed.

(** The list the hook returns when the subgraph path is active, the
    subgraph snapshot is empty and the balance is positive. *)
Lemma fallback_sortedData :
  Hook.useSubgraph env pluginAddress pluginType options = true ->
  Hook.subgraphData env pluginAddress pluginType options = [] ->
  (0 < Hook.userBalanceNumber env pluginAddress pluginType options)%Q ->
  Hook.sortedData env pluginAddress pluginType options
  = [ Token {| tk_address := Js.asString (useWallet env);
               tk_balance :=
                 Hook.userBalanceNumber env pluginAddress pluginType options;
               tk_votingPower :=
                 Hook.userBalanceNumber env pluginAddress pluginType options;
               tk_delegatee := Js.asString (useWallet env);
               tk_delegators := [] |} ].
Proof.
  intros U S P.
  assert (E : Hook.getCombinedData env pluginAddress pluginType options
              = [ Token {| tk_address := Js.asString (useWallet env);
                           tk_balance :=
                             Hook.userBalanceNumber env pluginAddress pluginType options;
                           tk_votingPower :=
                             Hook.userBalanceNumber env pluginAddress pluginType options;
                           tk_delegatee := Js.asString (useWallet env);
                           tk_delegators := [] |} ]).
  { unfold Hook.getCombinedData. rewrite U, S, (gtNum_pos _ P). reflexivity. }
  unfold Hook.sortedData. rewrite E.
  now destruct (opt_sort (Hook.opts options)).
Qed.
End Fallback.

(** *** Whole amounts are exact *)

Lemma pow2_nonneg_exp (e : Z) : (0 <= e)%Z -> Double.pow2 e = (2 ^ e)%Z.
Proof. intros. unfold Double.pow2. now rewrite Z.max_r by lia. Qed.

Lemma pow2_neg_exp (e : Z) : (e <= 0)%Z -> Double.pow2 e = 1%Z.
Proof. intros. unfold Double.pow2. now rewrite Z.max_l by lia. Qed.

(** A quotient below [2^c] has an exponent below [c]. *)
Lemma exponent_upper (n d c : Z) :
  (0 < n)%Z -> (0 < d)%Z -> (0 <= c)%Z -> (n < d * 2 ^ c)%Z ->
  (Double.exponent n d < c)%Z.
Proof.
  intros Hn Hd Hc H. unfold Double.exponent.
  pose proof (Z.log2_spec n Hn) as [Ln Un].
  pose proof (Z.log2_spec d Hd) as [Ld Ud].
  pose proof (Z.log2_nonneg n). pose proof (Z.log2_nonneg d).
  set (a := Z.log2 n) in *. set (b := Z.log2 d) in *.
  destruct (Double.atLeastPow2 n d (a - b)) eqn:E.
  - unfold Double.atLeastPow2 in E. apply Z.leb_le in E.
    destruct (Z.lt_ge_cases (a - b) c) as [|G]; trivial. exfalso.
    rewrite pow2_nonneg_exp in E by lia. rewrite pow2_neg_exp in E by lia.
    assert (2 ^ c <= 2 ^ (a - b))%Z by (apply Z.pow_le_mono_r; lia).
    nia.
  - destruct (Z.lt_ge_cases (a - b - 1) c) as [|G]; trivial. exfalso.
    assert (2 ^ c <= 2 ^ (a - b - 1))%Z by (apply Z.pow_le_mono_r; lia).
    assert (2 ^ (b + 1) * 2 ^ (a - b - 1) = 2 ^ a)%Z.
    { rewrite <- Z.pow_add_r by lia. f_equal. lia. }
    assert (0 < 2 ^ (a - b - 1))%Z by (apply Z.pow_pos_nonneg; lia).
    nia.
Qed.

Lemma Qred_inject_Z (v : Z) : Qred (inject_Z v) = inject_Z v.
Proof.
  unfold Qred, inject_Z.
  pose proof (Z.ggcd_gcd v 1) as G.
  pose proof (Z.ggcd_correct_divisors v 1) as D.
  destruct (Z.ggcd v 1) as (g, (aa, bb)). simpl in G.
  rewrite Z.gcd_1_r in G. subst g. destruct D as [D1 D2].
  rewrite !Z.mul_1_l in *. now subst.
Qed.

(** An integer below [2^53] is a double: rounding leaves it as it is. *)
Lemma roundPos_exact (n d : positive) (v : Z) :
  Z.pos n = (v * Z.pos d)%Z -> (v < 2 ^ 53)%Z ->
  Double.roundPos n d = inject_Z v.
Proof.
  intros E B.
  assert (Hv : (0 < v)%Z) by nia.
  assert (X : (Double.exponent (Z.pos n) (Z.pos d) < 53)%Z).
  { apply exponent_upper; try lia. rewrite E. nia. }
  unfold Double.roundPos.
  set (k := (Z.max (Double.exponent (Z.pos n) (Z.pos d)) (-1022) - 52)%Z).
  assert (Hk : (k <= 0)%Z) by (unfold k; lia).
  rewrite (pow2_neg_exp k Hk).
  set (p := Double.pow2 (- k)). assert (Hp : (0 < p)%Z) by apply pow2_pos.
  assert (M : Double.roundHalfEven (Z.pos n * p) (Z.pos d * 1) = (v * p)%Z).
  { unfold Double.roundHalfEven. rewrite Z.mul_1_r, E.
    replace (v * Z.pos d * p)%Z with (v * p * Z.pos d)%Z by ring.
    rewrite Z.mod_mul, Z.div_mul by lia.
    destruct (2 * 0 <? Z.pos d)%Z eqn:L; trivial. apply Z.ltb_ge in L. lia. }
  rewrite M, Z.mul_1_r.
  rewrite <- (Qred_inject_Z v).
  apply Qred_complete. unfold Qeq, inject_Z. cbn [Qnum Qden].
  rewrite Z2Pos.id by trivial. ring.
Qed.

(** A raw amount that is a whole number of tokens below [2^53] is scaled to
    exactly that number. *)
Lemma formatUnits_whole (whole : Z) (unitName : option nat) :
  (0 <= whole < 2 ^ 53)%Z ->
  formatUnits (whole * 10 ^ Z.of_nat (Js.nullish unitName 18%nat)) unitName
  = inject_Z whole.
Proof.
  intros [L U]. unfold formatUnits, Double.round. cbn [Qnum Qden].
  assert (P : (0 < 10 ^ Z.of_nat (Js.nullish unitName 18%nat))%Z)
    by (apply Z.pow_pos_nonneg; lia).
  destruct (whole * 10 ^ Z.of_nat (Js.nullish unitName 18%nat))%Z as [|n|n] eqn:E.
  - assert (whole = 0%Z) by nia. now subst.
  - apply roundPos_exact; trivial. rewrite Z2Pos.id by trivial. now symmetry.
  - exfalso. nia.
Qed.

(** C2. When the subgraph path is active, the subgraph list is empty and the
    balance the hook reads for the connected wallet is positive, the call is
    neither count-only nor gasless and the envelope it returns has for
    [members] one Token member: its address and its delegatee are the
    wallet, its balance and its voting power are both the raw on-chain
    balance scaled by the decimals of the token (the number
    [Number(formatUnits(raw, decimals))]; exactly [whole] for a raw balance
    of [whole] times [10^decimals], [whole] below [2^53]), and it has no
    delegators.  The call returns when the decimals are at most 256 and the
    network has its entry in [CHAIN_METADATA]; the balance is a 256-bit
    unsigned integer. *)
Theorem fallback_self_balance
    (env : Env) (pluginAddress : string) (pluginType : option PluginTypes)
    (options : option DaoMembersOptions) :
  Hook.useSubgraph env pluginAddress pluginType options = true ->
  Hook.subgraphData env pluginAddress pluginType options = [] ->
  (0 < Hook.userBalanceNumber env pluginAddress pluginType options)%Q ->
  decimalsAccepted (useDaoToken env pluginAddress) = true ->
  CHAIN_METADATA env (useNetwork env) <> None ->
  (forall contract wallet id results,
      balanceOf env contract wallet id = Some results -> Forall uint256 results) ->
  exists wallet token raw rest r,
    useWallet env = Some wallet
    /\ useDaoToken env pluginAddress = Some token
    /\ balanceOf env (Some (token_address token)) (Some wallet)
                 (CHAIN_METADATA_id env (useNetwork env))
       = Some (raw :: rest)
    /\ (0 < raw < 2 ^ 256)%Z
    /\ Hook.countOnly options = false
    /\ pluginType <> Some GaslessPluginName
    /\ useDaoMembersChecked env pluginAddress pluginType options = Returns r
    /\ members (data r)
       = [ Token {| tk_address := wallet;
                    tk_balance := formatUnits raw (Some (token_decimals token));
                    tk_votingPower := formatUnits raw (Some (token_decimals token));
                    tk_delegatee := wallet;
                    tk_delegators := [] |} ]
    /\ (forall whole,
           (0 <= whole < 2 ^ 53)%Z ->
           raw = (whole * 10 ^ Z.of_nat (token_decimals token))%Z ->
           members (data r)
           = [ Token {| tk_address := wallet;
                        tk_balance := inject_Z whole;
                        tk_votingPower := inject_Z whole;
                        tk_delegatee := wallet;
                        tk_delegators := [] |} ]).
Proof.
  intros U S P D C B256.
  destruct (positive_balance_inv env pluginAddress pluginType options P)
    as (wallet & token & raw & rest & W & T & B & R & N & CO & G).
  destruct (CHAIN_METADATA env (useNetwork env)) as [id|] eqn:X; [|congruence].
  exists wallet, token, raw, rest,
    (useDaoMembers env pluginAddress pluginType options).
  assert (M : members (data (useDaoMembers env pluginAddress pluginType options))
              = [ Token {| tk_address := wallet;
                           tk_balance := formatUnits raw (Some (token_decimals token));
                           tk_votingPower := formatUnits raw (Some (token_decimals token));
                           tk_delegatee := wallet;
                           tk_delegators := [] |} ]).
  { rewrite useDaoMembers_full by trivial. simpl.
    rewrite fallback_sortedData by trivial. now rewrite N, W. }
  split; trivial. split; trivial. split; trivial. split.
  { split; trivial. apply B256 in B. inversion B as [|? ? [_ H] _]; subst.
    exact H. }
  split; trivial. split.
  { intros ->. rewrite (proj2 (enableCensus3_gasless _ options) eq_refl) in G.
    discriminate. }
  split; [now apply (checked_returns env pluginAddress pluginType options id)|].
  split; trivial.
  intros whole Hw ->. rewrite M.
  pose proof (formatUnits_whole whole (Some (token_decimals token)) Hw) as F.
  cbn [Js.nullish] in F. now rewrite F.
Qed.

Lemma fallback_self_balance_witness :
  let member (balance : Q) :=
    Token {| tk_address := Sample.wallet; tk_balance := balance;
             tk_votingPower := balance; tk_delegatee := Sample.wallet;
             tk_delegators := [] |} in
  let call (env : Env) :=
    useDaoMembersChecked env "0x50" (Some TokenVotingPlugin) None in
  (exists r, call World.lagging = Returns r /\ members (data r) = [member 150])
  /\ (exists r, call (Cases.holding 1500000000000000000) = Returns r
                /\ members (data r) = [member (3 # 2)])
  /\ (exists r, call (Cases.holding 100000000000000000) = Returns r
                /\ members (data r)
                   = [member (3602879701896397 # 36028797018963968)])
  /\ (exists r, call (Cases.holding 150000000000000000000) = Returns r
                /\ members (data r) = [member 150]).
Proof.
  cbv zeta.
  assert (K : forall raw, (0 <= raw < 2 ^ 256)%Z ->
    forall (contract wallet : option string) (id : nat) (results : list Z),
      Some [raw] = Some results -> Forall uint256 results).
  { intros raw H contract wallet id results E. injection E as <-.
    constructor; [exact H | constructor]. }
  assert (R : forall env r,
    useDaoMembersChecked env "0x50" (Some TokenVotingPlugin) None = Returns r ->
    r = useDaoMembers env "0x50" (Some TokenVotingPlugin) None)
    by (intros env r; apply checked_value).
  split; [|split; [|split]].
  - destruct (fallback_self_balance World.lagging "0x50" (Some TokenVotingPlugin)
                None eq_refl eq_refl eq_refl eq_refl)
      as (wallet & token & raw & rest & r & W & T & B & _ & _ & _ & E & M & _).
    + discriminate.
    + apply (K 150%Z). split; [lia | reflexivity].
    + injection W as <-. injection T as <-. injection B as <- <-.
      exists r. split; [exact E|].
      clear M. rewrite (R _ r E). reflexivity.
  - destruct (fallback_self_balance (Cases.holding 1500000000000000000) "0x50" (Some TokenVotingPlugin)
                None eq_refl eq_refl eq_refl eq_refl)
      as (wallet & token & raw & rest & r & W & T & B & _ & _ & _ & E & M & _).
    + discriminate.
    + apply (K 1500000000000000000%Z). split; [lia | reflexivity].
    + injection W as <-. injection T as <-. injection B as <- <-.
      exists r. split; [exact E|].
      clear M. rewrite (R _ r E). reflexivity.
  - destruct (fallback_self_balance (Cases.holding 100000000000000000) "0x50" (Some TokenVotingPlugin)
                None eq_refl eq_refl eq_refl eq_refl)
      as (wallet & token & raw & rest & r & W & T & B & _ & _ & _ & E & M & _).
    + discriminate.
    + apply (K 100000000000000000%Z). split; [lia | reflexivity].
    + injection W as <-. injection T as <-. injection B as <- <-.
      exists r. split; [exact E|].
      clear M. rewrite (R _ r E). reflexivity.
  - destruct (fallback_self_balance (Cases.holding 150000000000000000000) "0x50" (Some TokenVotingPlugin)
                None eq_refl eq_refl eq_refl eq_refl)
      as (wallet & token & raw & rest & r & W & T & B & _ & _ & _ & E & _ & H).
    + discriminate.
    + apply (K 150000000000000000000%Z). split; [lia | reflexivity].
    + injection W as <-. injection T as <-. injection B as <- <-.
      exists r. split; [exact E|].
      rewrite (H 150%Z); [reflexivity | split; [lia | reflexivity] | reflexivity].
Defined.

(** C10. On the subgraph path the fall-back member is made whenever the
    snapshot of the subgraph answer is empty (no data yet, or an empty list)
    and the scaled balance of the connected wallet is positive, whatever the
    loading and error flags of the subgraph query are: [members] has one
    element, and [isError] and [isLoading] still combine the flags of the two
    queries. *)
Theorem fallback_despite_loading_or_error
    (env : Env) (pluginAddress : string) (pluginType : option PluginTypes)
    (options : option DaoMembersOptions) :
  Hook.useSubgraph env pluginAddress pluginType options = true ->
  q_data (Hook.membersQuery env pluginAddress pluginType options) = None
  \/ q_data (Hook.membersQuery env pluginAddress pluginType options) = Some [] ->
  (0 < Hook.userBalanceNumber env pluginAddress pluginType options)%Q ->
  let r := useDaoMembers env pluginAddress pluginType options in
  (exists wallet,
      useWallet env = Some wallet
      /\ members (data r)
         = [ Token {| tk_address := wallet;
                      tk_balance :=
                        Hook.userBalanceNumber env pluginAddress pluginType options;
                      tk_votingPower :=
                        Hook.userBalanceNumber env pluginAddress pluginType options;
                      tk_delegatee := wallet;
                      tk_delegators := [] |} ])
  /\ List.length (members (data r)) = 1%nat
  /\ memberCount (data r) = 1%nat
  /\ isError r
     = q_isError (Hook.membersQuery env pluginAddress pluginType options)
       || q_isError (Hook.tokenHoldersQuery env pluginAddress pluginType options)
  /\ isLoading r
     = q_isLoading (Hook.membersQuery env pluginAddress pluginType options)
       && q_isLoading (Hook.tokenHoldersQuery env pluginAddress pluginType options).
Proof.
  intros U D P. cbv zeta.
  assert (S : Hook.subgraphData env pluginAddress pluginType options = [])
    by (unfold Hook.subgraphData; destruct D as [-> | ->]; reflexivity).
  destruct (positive_balance_inv env pluginAddress pluginType options P)
    as (wallet & _ & _ & _ & W & _ & _ & _ & _ & C & G).
  rewrite useDaoMembers_full by trivial. simpl.
  unfold Hook.memberCount. rewrite U.
  rewrite fallback_sortedData by trivial. rewrite W. simpl.
  repeat split; trivial. now exists wallet.
Qed.

Lemma fallback_despite_loading_or_error_witness :
  let r := useDaoMembers World.failing "0x50" (Some TokenVotingPlugin) None in
  members (data r) = [ Sample.holder Sample.wallet 150 [] ]
  /\ isError r = true
  /\ isLoading r = false.
Proof.
  destruct (fallback_despite_loading_or_error
              World.failing "0x50" (Some TokenVotingPlugin) None
              eq_refl (or_introl eq_refl) eq_refl)
    as ((wallet & W & M) & _ & _ & E & L).
  injection W as <-. split; [exact M|]. split; [exact E | exact L].
Defined.

(** * Further properties of the code *)

(** ** The sorted array is ordered *)

Section SortOrder.
Context {A : Type}.
Variable comparefn : A -> A -> Q.
Variable dom : A -> Prop.

Hypothesis sign_anti :
  forall a b, Qle_bool 0 (comparefn a b) = true -> (comparefn b a <= 0)%Q.
Hypothesis dom_trans :
  forall a b c, dom a -> dom b -> dom c ->
                (comparefn a b <= 0)%Q -> (comparefn b c <= 0)%Q ->
                (comparefn a c <= 0)%Q.

Let le (a b : A) : Prop := (comparefn a b <= 0)%Q.

Lemma insert_sorted (x : A) (l : list A) :
  dom x -> Forall dom l -> StronglySorted le l ->
  StronglySorted le (Js.insert comparefn x l).
Proof.
  intros Hx. induction l as [|y l IH]; intros Hl Hs; simpl.
  - constructor; constructor.
  - apply StronglySorted_inv in Hs. destruct Hs as [Hs Hy].
    inversion Hl as [|? ? Dy Dl]; subst.
    destruct (Qle_bool 0 (comparefn x y)) eqn:E.
    + constructor; [now apply IH|].
      apply (Permutation_Forall (Permutation_sym (insert_Permutation comparefn x l))).
      constructor; trivial. now apply sign_anti.
    + assert (Lxy : le x y).
      { unfold le. destruct (Qlt_le_dec (comparefn x y) 0) as [L|L].
        - now apply Qlt_le_weak.
        - apply Qle_bool_iff in L. congruence. }
      constructor; [now constructor|].
      constructor; trivial.
      rewrite Forall_forall in *. intros z Hz.
      apply (dom_trans x y z); auto. now apply Hy.
Qed.

Lemma fold_insert_sorted (l acc : list A) :
  Forall dom l -> Forall dom acc -> StronglySorted le acc ->
  StronglySorted le (fold_left (fun acc x => Js.insert comparefn x acc) l acc).
Proof.
  revert acc. induction l as [|x l IH]; intros acc Hl Hacc Hs; simpl; trivial.
  inversion Hl; subst. apply IH; trivial.
  - apply (Permutation_Forall (Permutation_sym (insert_Permutation comparefn x acc))).
    now constructor.
  - now apply insert_sorted.
Qed.

Lemma sort_sorted (l : list A) :
  Forall dom l -> StronglySorted le (Js.sort comparefn l).
Proof.
  intros Hl. apply fold_insert_sorted; trivial; constructor.
Qed.
End SortOrder.

Section ComparatorSign.
Variable sortKey : option DaoMemberSort.
Variable userAddress : option string.

Let cmp := sortDaoMembers sortKey userAddress.

(** Where the comparator does not put [a] before [b], it does not put [b]
    after [a]. *)
Lemma cmp_sign_anti (a b : DaoMember) :
  Qle_bool 0 (cmp a b) = true -> (cmp b a <= 0)%Q.
Proof.
  intros H. apply Qle_bool_iff in H.
  destruct (isConnectedUser userAddress a) eqn:Ua.
  { unfold cmp in H. rewrite cmp_user_left in H by trivial. lra. }
  destruct (isConnectedUser userAddress b) eqn:Ub.
  { unfold cmp. rewrite cmp_user_left by trivial. lra. }
  destruct (isTokenDaoMember a && isTokenDaoMember b) eqn:T.
  - destruct a as [a|a], b as [b|b]; try discriminate.
    destruct (isDelegator userAddress a) eqn:Da.
    { unfold cmp in H. rewrite cmp_delegator_left in H by trivial. lra. }
    destruct (isDelegator userAddress b) eqn:Db.
    { unfold cmp. rewrite cmp_delegator_left by trivial. lra. }
    unfold cmp in *. rewrite cmp_tokens in * by trivial.
    destruct sortKey as [[|]|]; try lra.
    revert H.
    destruct (Z.eqb_spec (Z.of_nat (List.length (tk_delegators b)))
                         (Z.of_nat (List.length (tk_delegators a))));
      destruct (Z.eqb_spec (Z.of_nat (List.length (tk_delegators a)))
                           (Z.of_nat (List.length (tk_delegators b))));
      try lia; try lra.
    change 0%Q with (inject_Z 0). rewrite <- !Zle_Qle. lia.
  - assert (T' : isTokenDaoMember b && isTokenDaoMember a = false)
      by (now rewrite andb_comm).
    unfold cmp in *.
    rewrite (cmp_fallback _ _ a b) in H by trivial.
    rewrite (cmp_fallback _ _ b a) by trivial.
    destruct (Js.gt (memberAddress a) (memberAddress b)) eqn:G.
    + rewrite (gt_asym _ _ G). lra.
    + lra.
Qed.

Lemma cmp_trans_same_variant (v : bool) (a b c : DaoMember) :
  isTokenDaoMember a = v -> isTokenDaoMember b = v -> isTokenDaoMember c = v ->
  (cmp a b <= 0)%Q -> (cmp b c <= 0)%Q -> (cmp a c <= 0)%Q.
Proof.
  destruct a as [a|a], b as [b|b], c as [c|c]; simpl;
    intros <-; try discriminate; intros _ _.
  - apply cmp_trans_basic.
  - apply cmp_trans_token.
Qed.
End ComparatorSign.

Lemma sort_same_variant_ordered_aux
    (sortKey : option DaoMemberSort) (userAddress : option string)
    (v : bool) (l : list DaoMember) :
  Forall (fun m => isTokenDaoMember m = v) l ->
  StronglySorted (notAfter sortKey userAddress)
                 (Js.sort (sortDaoMembers sortKey userAddress) l)
  /\ Permutation (Js.sort (sortDaoMembers sortKey userAddress) l) l.
Proof.
  intros H. split; [|apply sort_Permutation].
  apply (sort_sorted (sortDaoMembers sortKey userAddress)
                     (fun m => isTokenDaoMember m = v)); trivial.
  - apply cmp_sign_anti.
  - intros a b c. apply cmp_trans_same_variant.
Qed.

(** Sorting a list whose members are all of one variant (all Token, or all
    Basic) yields a rearrangement of the list in which every member is
    ordered not after any member that follows it. *)
Theorem sort_same_variant_ordered
    (sortKey : option DaoMemberSort) (userAddress : option string)
    (v : bool) (l : list DaoMember) :
  Forall (fun m => isTokenDaoMember m = v) l ->
  StronglySorted (notAfter sortKey userAddress)
                 (Js.sort (sortDaoMembers sortKey userAddress) l)
  /\ Permutation (Js.sort (sortDaoMembers sortKey userAddress) l) l.
Proof. apply sort_same_variant_ordered_aux. Qed.

Lemma sort_same_variant_ordered_witness :
  Js.sort (sortDaoMembers (Some delegations) (Some Sample.wallet)) Sample.board
  = [Sample.me; Token Sample.carol; Token Sample.dave; Token Sample.erin]
  /\ StronglySorted (notAfter (Some delegations) (Some Sample.wallet))
       [Sample.me; Token Sample.carol; Token Sample.dave; Token Sample.erin].
Proof.
  split; [reflexivity|].
  apply (sort_same_variant_ordered (Some delegations) (Some Sample.wallet)
                                   true Sample.board).
  repeat constructor.
Defined.

(** ** More on the comparator *)

(** Among Token members that are not the connected user, one that counts the
    connected address among its delegators is ordered before one that does
    not, whatever the sort key, the numbers of delegators and the voting
    powers are. *)
Theorem delegator_of_user_first
    (sortKey : option DaoMemberSort) (userAddress : option string)
    (a b : TokenDaoMember) :
  isConnectedUser userAddress (Token a) = false ->
  isConnectedUser userAddress (Token b) = false ->
  isDelegator userAddress a = true ->
  isDelegator userAddress b = false ->
  let cmp := sortDaoMembers sortKey userAddress in
  cmp (Token a) (Token b) = (-1)%Q
  /\ cmp (Token b) (Token a) = 1%Q
  /\ Js.sort cmp [Token a; Token b] = [Token a; Token b]
  /\ Js.sort cmp [Token b; Token a] = [Token a; Token b].
Proof.
  intros Ua Ub Da Db cmp.
  assert (E1 : cmp (Token a) (Token b) = (-1)%Q)
    by (now apply cmp_delegator_left).
  assert (E2 : cmp (Token b) (Token a) = 1%Q)
    by (now apply cmp_delegator_right).
  split; trivial. split; trivial.
  apply sort_pair; fold cmp; rewrite ?E1, ?E2; reflexivity.
Qed.

Lemma delegator_of_user_first_witness :
  let friend := {| tk_address := "0xf0"; tk_balance := 1; tk_votingPower := 1;
                   tk_delegatee := "0xf0"; tk_delegators := ["0xABC1"] |} in
  let cmp := sortDaoMembers (Some votingPower) (Some Sample.wallet) in
  cmp (Token friend) (Token Sample.dave) = (-1)%Q
  /\ cmp (Token Sample.dave) (Token friend) = 1%Q
  /\ Js.sort cmp [Token friend; Token Sample.dave] = [Token friend; Token Sample.dave]
  /\ Js.sort cmp [Token Sample.dave; Token friend] = [Token friend; Token Sample.dave].
Proof.
  cbv zeta.
  apply (delegator_of_user_first (Some votingPower) (Some Sample.wallet)
           {| tk_address := "0xf0"; tk_balance := 1; tk_votingPower := 1;
              tk_delegatee := "0xf0"; tk_delegators := ["0xABC1"] |}
           Sample.dave); reflexivity.
Defined.



Lemma StronglySorted_map_inv {A B : Type} (f : A -> B) (P : A -> Prop)
    (R : B -> B -> Prop) (R' : A -> A -> Prop) (l : list A) :
  (forall a b, P a -> P b -> R (f a) (f b) -> R' a b) ->
  Forall P l -> StronglySorted R (map f l) -> StronglySorted R' l.
Proof.
  intros HR. induction l as [|x l IH]; intros HP HS; simpl in *.
  - constructor.
  - apply StronglySorted_inv in HS. destruct HS as [HS Hx].
    inversion HP; subst. constructor; [now apply IH|].
    rewrite Forall_forall in *. intros y Hy.
    apply HR; auto. apply Hx. now apply in_map.
Qed.

(** With the key ["votingPower"], or with no key, a list of Token members
    none of which is the connected user or a delegator of the connected user
    is sorted into a rearrangement whose voting powers never increase. *)
Theorem sort_votingPower_descending
    (sortKey : option DaoMemberSort) (userAddress : option string)
    (l : list TokenDaoMember) :
  sortKey <> Some delegations ->
  Forall (fun t => isConnectedUser userAddress (Token t) = false
                   /\ isDelegator userAddress t = false) l ->
  exists sorted,
    Js.sort (sortDaoMembers sortKey userAddress) (map Token l) = map Token sorted
    /\ Permutation l sorted
    /\ StronglySorted (fun a b => (tk_votingPower b <= tk_votingPower a)%Q) sorted.
Proof.
  intros K Hl.
  destruct (sort_same_variant_ordered_aux sortKey userAddress true (map Token l))
    as [HS HP].
  { rewrite Forall_forall. intros m Hm. apply in_map_iff in Hm.
    now destruct Hm as (t & <- & _). }
  apply Permutation_map_inv in HP. destruct HP as (sorted & E & HP).
  exists sorted. split; trivial. split; trivial.
  rewrite E in HS.
  apply (StronglySorted_map_inv Token
           (fun t => isConnectedUser userAddress (Token t) = false
                     /\ isDelegator userAddress t = false)
           (notAfter sortKey userAddress)); trivial.
  - intros a b [Ua Da] [Ub Db]. unfold notAfter.
    rewrite cmp_tokens by trivial.
    destruct sortKey as [[|]|]; try congruence; lra.
  - apply (Permutation_Forall HP Hl).
Qed.

Lemma sort_votingPower_descending_witness :
  exists sorted,
    Js.sort (sortDaoMembers None None)
            (map Token [Sample.carol; Sample.dave; Sample.erin])
    = map Token sorted
    /\ Permutation [Sample.carol; Sample.dave; Sample.erin] sorted
    /\ StronglySorted (fun a b => (tk_votingPower b <= tk_votingPower a)%Q) sorted.
Proof.
  apply (sort_votingPower_descending None None
           [Sample.carol; Sample.dave; Sample.erin]).
  - discriminate.
  - repeat constructor.
Defined.

(** ** Selection of the source *)

Section Selection.
Variable env : Env.
Variable pluginAddress : string.
Variable pluginType : option PluginTypes.
Variable options : option DaoMembersOptions.

Lemma useGraphql_inv :
  Hook.useGraphql env pluginAddress pluginType options = true ->
  pluginType = Some TokenVotingPlugin
  /\ Hook.covalentSupportedNetwork env = true
  /\ useDaoToken env pluginAddress <> None.
Proof.
  unfold Hook.useGraphql. intros H.
  repeat (apply andb_true_iff in H; destruct H as [H ?]).
  split; [|split]; trivial.
  - unfold Hook.isTokenBased in H. now destruct pluginType as [[| |]|].
  - unfold Hook.daoToken in *. now destruct (useDaoToken env pluginAddress).
Qed.

Lemma denied_not_supported :
  deniedNetwork (useNetwork env) -> Hook.covalentSupportedNetwork env = false.
Proof.
  unfold Hook.covalentSupportedNetwork, Hook.network.
  intros [-> | [-> | ->]]; reflexivity.
Qed.
End Selection.

(** When the graph-index query is enabled, the subgraph path is taken as
    well exactly when that query reports an error: the two sources are used
    together only as a fall-back from a failed graph index. *)
Theorem subgraph_with_graphql_iff_error
    (env : Env) (pluginAddress : string) (pluginType : option PluginTypes)
    (options : option DaoMembersOptions) :
  Hook.useGraphql env pluginAddress pluginType options = true ->
  Hook.useSubgraph env pluginAddress pluginType options
  = q_isError (useTokenHolders env (useNetwork env)
                 (option_map token_address (useDaoToken env pluginAddress))
                 (opt_page (Hook.opts options)) true).
Proof.
  intros H. destruct (useGraphql_inv _ _ _ _ H) as (-> & N & _).
  unfold Hook.useSubgraph, Hook.isGraphqlError, Hook.tokenHoldersQuery.
  rewrite H, N. reflexivity.
Qed.

Lemma subgraph_with_graphql_iff_error_witness :
  Hook.useSubgraph World.indexed "0x50" (Some TokenVotingPlugin) None = false.
Proof.
  rewrite (subgraph_with_graphql_iff_error World.indexed "0x50"
             (Some TokenVotingPlugin) None); reflexivity.
Defined.

(** On the networks arbitrum, base and zksyncSepolia, and for every plugin
    type other than token voting, the graph-index query is disabled and the
    subgraph path is taken, whatever the graph-index hook reports. *)
Theorem subgraph_forced
    (env : Env) (pluginAddress : string) (pluginType : option PluginTypes)
    (options : option DaoMembersOptions) :
  deniedNetwork (useNetwork env)
  \/ pluginType = Some MultisigPlugin
  \/ pluginType = Some GaslessPluginName ->
  Hook.useGraphql env pluginAddress pluginType options = false
  /\ Hook.useSubgraph env pluginAddress pluginType options = true
  /\ Hook.membersQuery env pluginAddress pluginType options
     = useMembers env pluginAddress pluginType true.
Proof.
  intros H.
  assert (G : Hook.useGraphql env pluginAddress pluginType options = false).
  { unfold Hook.useGraphql.
    destruct H as [H | [-> | ->]]; trivial.
    rewrite (denied_not_supported env H). now rewrite andb_false_r. }
  assert (S : Hook.useSubgraph env pluginAddress pluginType options = true).
  { unfold Hook.useSubgraph.
    destruct H as [H | [-> | ->]]; trivial.
    rewrite (denied_not_supported env H). simpl. now rewrite orb_true_r. }
  repeat split; trivial.
  unfold Hook.membersQuery. now rewrite S, enabled_always.
Qed.

Lemma subgraph_forced_witness :
  Hook.useGraphql World.lagging "0x50" (Some TokenVotingPlugin) None = false
  /\ Hook.useSubgraph World.lagging "0x50" (Some TokenVotingPlugin) None = true
  /\ Hook.membersQuery World.lagging "0x50" (Some TokenVotingPlugin) None
     = useMembers World.lagging "0x50" (Some TokenVotingPlugin) true.
Proof.
  apply (subgraph_forced World.lagging "0x50" (Some TokenVotingPlugin) None).
  left. left. reflexivity.
Defined.

(** ** Normalization *)

Lemma sdkToDaoMember_address (member : SdkMember) (d : option nat) :
  memberAddress (sdkToDaoMember member d) = sdkMemberAddress member.
Proof. now destruct member. Qed.

Lemma sdkToDaoMember_variant (member : SdkMember) (d : option nat) :
  isTokenDaoMember (sdkToDaoMember member d) = isVotingMember member.
Proof. now destruct member. Qed.

(** The normalized subgraph list has one member per entry of the subgraph
    answer, in the same order, with the address of the entry; a bare address
    gives a Basic member and a structured entry a Token member. *)
Theorem parsedSubgraphData_shape
    (env : Env) (pluginAddress : string) (pluginType : option PluginTypes)
    (options : option DaoMembersOptions) :
  map memberAddress (Hook.parsedSubgraphData env pluginAddress pluginType options)
  = map sdkMemberAddress (Hook.subgraphData env pluginAddress pluginType options)
  /\ map isTokenDaoMember (Hook.parsedSubgraphData env pluginAddress pluginType options)
     = map isVotingMember (Hook.subgraphData env pluginAddress pluginType options)
  /\ List.length (Hook.parsedSubgraphData env pluginAddress pluginType options)
     = List.length (Hook.subgraphData env pluginAddress pluginType options).
Proof.
  unfold Hook.parsedSubgraphData. rewrite !map_map, length_map.
  repeat split; apply map_ext; intros m.
  - apply sdkToDaoMember_address.
  - apply sdkToDaoMember_variant.
Qed.

(** The members made from the graph-index page are all Token members, one
    per holder and in page order, with the address and the delegate of the
    holder; no member is listed among its own delegators. *)
Theorem parsedGraphqlData_shape
    (env : Env) (pluginAddress : string) (pluginType : option PluginTypes)
    (options : option DaoMembersOptions) :
  map memberAddress (Hook.parsedGraphqlData env pluginAddress pluginType options)
  = map holder_address (Hook.graphqlHolders env pluginAddress pluginType options)
  /\ Forall (fun m => isTokenDaoMember m = true)
            (Hook.parsedGraphqlData env pluginAddress pluginType options)
  /\ (forall t,
         In (Token t) (Hook.parsedGraphqlData env pluginAddress pluginType options) ->
         existsb (fun d => compareAddresses (Some d) (Some (tk_address t)))
                 (tk_delegators t) = false).
Proof.
  unfold Hook.parsedGraphqlData. repeat split.
  - rewrite map_map. now apply map_ext.
  - rewrite Forall_forall. intros m Hm. apply in_map_iff in Hm.
    now destruct Hm as (h & <- & _).
  - intros t Ht. apply in_map_iff in Ht. destruct Ht as (h & E & _).
    injection E as <-. simpl.
    destruct (existsb _ _) eqn:X; trivial.
    apply existsb_exists in X. destruct X as (d & Hd & Hc).
    apply in_map_iff in Hd. destruct Hd as (o & <- & Ho).
    apply filter_In in Ho. destruct Ho as (_ & Hb).
    apply andb_true_iff in Hb. destruct Hb as (Hne & _).
    apply negb_true_iff in Hne. congruence.
Qed.

(** ** The gasless path *)

(** For the gasless plugin the hook returns what the census hook returns.
    The census hook receives the normalized answer of the subgraph query,
    which is enabled, the plugin address and type, and the options of the
    caller (search term, sort key, page and member list as they are, all
    absent when the caller gave no options) with [enabled: true] and the
    count-only flag made explicit; the balance of the wallet is not read. *)
Theorem gasless_delegates_to_census
    (env : Env) (pluginAddress : string) (options : option DaoMembersOptions) :
  let pluginType := Some GaslessPluginName in
  let given : DaoMembersOptions :=
    match options with
    | Some o => o
    | None => noOptions
    end in
  useDaoMembers env pluginAddress pluginType options
  = useCensus3DaoMembers env
      (map (fun member =>
              sdkToDaoMember member
                (option_map token_decimals (useDaoToken env pluginAddress)))
           (match q_data (useMembers env pluginAddress pluginType true) with
            | Some entries => entries
            | None => []
            end))
      pluginAddress pluginType
      {| opt_searchTerm := opt_searchTerm given;
         opt_sort := opt_sort given;
         opt_page := opt_page given;
         opt_countOnly :=
           Some (match opt_countOnly given with
                 | Some true => true
                 | _ => false
                 end);
         opt_memberList := opt_memberList given;
         opt_enabled := Some true |}
  /\ Hook.userBalance env pluginAddress pluginType options = None.
Proof.
  cbv zeta. split.
  - rewrite useDaoMembers_gasless by trivial.
    unfold Hook.census3Data, Hook.parsedSubgraphData, Hook.subgraphData,
      Hook.membersQuery, Hook.daoToken, Hook.census3Options.
    rewrite enabled_always,
      (proj2 (enableCensus3_gasless (Some GaslessPluginName) options)) by trivial.
    reflexivity.
  - unfold Hook.userBalance, useReadContracts, Hook.balanceQueryEnabled.
    rewrite (proj2 (enableCensus3_gasless (Some GaslessPluginName) options)) by trivial.
    simpl. now rewrite !andb_false_r.
Qed.

Lemma gasless_delegates_to_census_witness :
  let o := {| opt_searchTerm := Some "0x"; opt_sort := Some delegations;
              opt_page := Some 2%nat; opt_countOnly := None;
              opt_memberList := Some ["0xaa"; "0xbb"];
              opt_enabled := Some false |} in
  let r := useDaoMembers Cases.gasless "0x50" (Some GaslessPluginName) (Some o) in
  members (data r) = [Sample.basic "0x01"]
  /\ filteredMembers (data r) = [Sample.basic "0xaa"; Sample.basic "0xbb"]
  /\ memberCount (data r) = 2%nat
  /\ isLoading r = false
  /\ isError r = true.
Proof.
  cbv zeta.
  destruct (gasless_delegates_to_census Cases.gasless "0x50"
              (Some {| opt_searchTerm := Some "0x"; opt_sort := Some delegations;
                       opt_page := Some 2%nat; opt_countOnly := None;
                       opt_memberList := Some ["0xaa"; "0xbb"];
                       opt_enabled := Some false |})) as (E & _).
  rewrite E. repeat split.
Defined.

(** ** The full path *)

Section FullPath.
Variable env : Env.
Variable pluginAddress : string.
Variable pluginType : option PluginTypes.
Variable options : option DaoMembersOptions.

Lemma sortedData_Permutation :
  Permutation (Hook.sortedData env pluginAddress pluginType options)
              (Hook.getCombinedData env pluginAddress pluginType options).
Proof.
  unfold Hook.sortedData. destruct (opt_sort (Hook.opts options)).
  - apply sort_Permutation.
  - apply Permutation_refl.
Qed.

Lemma not_subgraph_not_gasless :
  Hook.useSubgraph env pluginAddress pluginType options = false ->
  Hook.enableCensus3 pluginType options = false.
Proof.
  intros U. apply enableCensus3_not_gasless. intros ->. discriminate.
Qed.

(** Without a connected wallet, or without the token, the balance of the
    wallet is not read and counts as zero. *)
Lemma no_balance_without_wallet_or_token :
  useWallet env = None \/ useDaoToken env pluginAddress = None ->
  Js.gtNum (Hook.userBalanceNumber env pluginAddress pluginType options) 0 = false.
Proof.
  intros H.
  destruct (Js.gtNum (Hook.userBalanceNumber env pluginAddress pluginType options) 0)
    eqn:E; trivial.
  assert (P : (0 < Hook.userBalanceNumber env pluginAddress pluginType options)%Q).
  { unfold Js.gtNum in E. apply negb_true_iff in E.
    destruct (Qlt_le_dec 0 (Hook.userBalanceNumber env pluginAddress pluginType options))
      as [L|L]; trivial.
    apply Qle_bool_iff in L. congruence. }
  destruct (positive_balance_inv _ _ _ _ P) as (w & t & _ & _ & W & T & _).
  destruct H; congruence.
Qed.
End FullPath.

(** On the full path [members] is a rearrangement of the combined data,
    so sorting neither drops nor repeats a member, and it is the combined
    data itself when no sort key is given; [filteredMembers] is never longer
    than [members]. *)
Theorem members_rearrange_combined
    (env : Env) (pluginAddress : string) (pluginType : option PluginTypes)
    (options : option DaoMembersOptions) :
  Hook.countOnly options = false ->
  pluginType <> Some GaslessPluginName ->
  let r := useDaoMembers env pluginAddress pluginType options in
  Permutation (members (data r))
              (Hook.getCombinedData env pluginAddress pluginType options)
  /\ (opt_sort (Hook.opts options) = None ->
      members (data r) = Hook.getCombinedData env pluginAddress pluginType options)
  /\ (List.length (filteredMembers (data r)) <= List.length (members (data r)))%nat.
Proof.
  intros C G. cbv zeta.
  rewrite useDaoMembers_full by (trivial; now apply enableCensus3_not_gasless).
  simpl. split; [apply sortedData_Permutation|]. split.
  - unfold Hook.sortedData. now intros ->.
  - unfold Hook.filteredData.
    destruct (negb (Js.truthyString (Hook.searchTerm options))); trivial.
    apply filter_length_le.
Qed.

Lemma members_rearrange_combined_witness :
  let o := Some {| opt_searchTerm := Some "12"; opt_sort := Some votingPower;
                   opt_page := None; opt_countOnly := None;
                   opt_memberList := None; opt_enabled := None |} in
  let r := useDaoMembers World.listed "0x50" (Some TokenVotingPlugin) o in
  members (data r) = [Sample.basic "0x1234"; Sample.basic "0xAB01"]
  /\ Permutation (members (data r))
                 [Sample.basic "0xAB01"; Sample.basic "0x1234"]
  /\ (List.length (filteredMembers (data r)) <= 2)%nat.
Proof.
  cbv zeta.
  destruct (members_rearrange_combined World.listed "0x50" (Some TokenVotingPlugin)
              (Some {| opt_searchTerm := Some "12"; opt_sort := Some votingPower;
                       opt_page := None; opt_countOnly := None;
                       opt_memberList := None; opt_enabled := None |}) eq_refl)
    as (HP & _ & HL).
  - discriminate.
  - split; [reflexivity|]. split; [exact HP | exact HL].
Defined.

(** On the full path the count is the length of [members] when the subgraph
    path is taken.  Otherwise it is the total the graph index reports,
    whatever the size of the page it returned; while the graph index has
    reported nothing, [members] is empty and the count is 0. *)
Theorem memberCount_full
    (env : Env) (pluginAddress : string) (pluginType : option PluginTypes)
    (options : option DaoMembersOptions) :
  Hook.countOnly options = false ->
  pluginType <> Some GaslessPluginName ->
  let r := useDaoMembers env pluginAddress pluginType options in
  (Hook.useSubgraph env pluginAddress pluginType options = true ->
   memberCount (data r) = List.length (members (data r)))
  /\ (Hook.useSubgraph env pluginAddress pluginType options = false ->
      match Hook.graphqlData env pluginAddress pluginType options with
      | Some g =>
          memberCount (data r) = totalHolders (response_holders g)
          /\ List.length (members (data r))
             = List.length (holders (response_holders g))
      | None => memberCount (data r) = 0%nat /\ members (data r) = []
      end).
Proof.
  intros C G. cbv zeta.
  rewrite useDaoMembers_full by (trivial; now apply enableCensus3_not_gasless).
  simpl. unfold Hook.memberCount. split; intros U; rewrite U; trivial.
  assert (L : List.length (Hook.sortedData env pluginAddress pluginType options)
              = List.length (Hook.graphqlHolders env pluginAddress pluginType options)).
  { rewrite (Permutation_length (sortedData_Permutation _ _ _ _)).
    unfold Hook.getCombinedData. rewrite U.
    unfold Hook.parsedGraphqlData. apply length_map. }
  revert L. unfold Hook.graphqlHolders.
  destruct (Hook.graphqlData env pluginAddress pluginType options) as [g|]; simpl.
  - now intros ->.
  - intros L. split; trivial.
    destruct (Hook.sortedData env pluginAddress pluginType options); trivial.
    discriminate.
Qed.

Lemma memberCount_full_witness :
  let r := useDaoMembers World.indexed "0x50" (Some TokenVotingPlugin) None in
  memberCount (data r) = 40%nat /\ List.length (members (data r)) = 2%nat.
Proof.
  destruct (memberCount_full World.indexed "0x50" (Some TokenVotingPlugin) None
              eq_refl) as (_ & H).
  - discriminate.
  - exact (H eq_refl).
Defined.

(** On the subgraph path, a call made without a connected wallet or before
    the token is known never yields the fall-back member: [members] is a
    rearrangement of the normalized subgraph list, and the count is the
    number of entries of the subgraph answer. *)
Theorem no_fallback_without_wallet_or_token
    (env : Env) (pluginAddress : string) (pluginType : option PluginTypes)
    (options : option DaoMembersOptions) :
  Hook.countOnly options = false ->
  pluginType <> Some GaslessPluginName ->
  Hook.useSubgraph env pluginAddress pluginType options = true ->
  useWallet env = None \/ useDaoToken env pluginAddress = None ->
  let r := useDaoMembers env pluginAddress pluginType options in
  Permutation (members (data r))
              (Hook.parsedSubgraphData env pluginAddress pluginType options)
  /\ memberCount (data r)
     = List.length (Hook.subgraphData env pluginAddress pluginType options).
Proof.
  intros C G U H. cbv zeta.
  rewrite useDaoMembers_full by (trivial; now apply enableCensus3_not_gasless).
  simpl.
  assert (E : Hook.getCombinedData env pluginAddress pluginType options
              = Hook.parsedSubgraphData env pluginAddress pluginType options).
  { unfold Hook.getCombinedData.
    rewrite U, (no_balance_without_wallet_or_token _ _ _ _ H).
    now rewrite andb_false_r. }
  assert (P := sortedData_Permutation env pluginAddress pluginType options).
  rewrite E in P. split; trivial.
  unfold Hook.memberCount. rewrite U, (Permutation_length P).
  unfold Hook.parsedSubgraphData. apply length_map.
Qed.

Lemma no_fallback_without_wallet_or_token_witness :
  let env := {| useNetwork := "base";
                useWallet := None;
                useDaoToken := fun _ => Some World.token;
                useTokenHolders := fun _ _ _ _ => World.answer None false false;
                useMembers := fun _ _ _ => World.answer (Some []) false false;
                useCensus3DaoMembers := fun _ _ _ _ => World.noEnvelope;
                CHAIN_METADATA := fun _ => Some 1%nat;
                balanceOf := fun _ _ _ => Some [150%Z] |} in
  let r := useDaoMembers env "0x50" (Some TokenVotingPlugin) None in
  Permutation (members (data r)) [] /\ memberCount (data r) = 0%nat.
Proof.
  cbv zeta.
  apply (no_fallback_without_wallet_or_token
           {| useNetwork := "base";
              useWallet := None;
              useDaoToken := fun _ => Some World.token;
              useTokenHolders := fun _ _ _ _ => World.answer None false false;
              useMembers := fun _ _ _ => World.answer (Some []) false false;
              useCensus3DaoMembers := fun _ _ _ _ => World.noEnvelope;
              CHAIN_METADATA := fun _ => Some 1%nat;
              balanceOf := fun _ _ _ => Some [150%Z] |}
           "0x50" (Some TokenVotingPlugin) None).
  - reflexivity.
  - discriminate.
  - reflexivity.
  - left. reflexivity.
Defined.

(** On the graph-index path with a sort key, [members] is a rearrangement of
    the normalized holders in which every member is ordered, by the
    comparator for that key and the connected wallet, not after any member
    that follows it. *)
Theorem graphql_members_ordered
    (env : Env) (pluginAddress : string) (pluginType : option PluginTypes)
    (options : option DaoMembersOptions) (key : DaoMemberSort) :
  Hook.countOnly options = false ->
  Hook.useSubgraph env pluginAddress pluginType options = false ->
  opt_sort (Hook.opts options) = Some key ->
  let r := useDaoMembers env pluginAddress pluginType options in
  StronglySorted (notAfter (Some key) (useWallet env)) (members (data r))
  /\ Permutation (members (data r))
                 (Hook.parsedGraphqlData env pluginAddress pluginType options).
Proof.
  intros C U K. cbv zeta.
  rewrite useDaoMembers_full by (trivial; now apply not_subgraph_not_gasless with env pluginAddress).
  simpl. unfold Hook.sortedData, Hook.getCombinedData. rewrite K, U.
  apply sort_same_variant_ordered_aux with (v := true).
  unfold Hook.parsedGraphqlData. rewrite Forall_forall. intros m Hm.
  apply in_map_iff in Hm. now destruct Hm as (h & <- & _).
Qed.

Lemma graphql_members_ordered_witness :
  let o := Some {| opt_searchTerm := None; opt_sort := Some votingPower;
                   opt_page := None; opt_countOnly := None;
                   opt_memberList := None; opt_enabled := None |} in
  let r := useDaoMembers World.indexed "0x50" (Some TokenVotingPlugin) o in
  map memberAddress (members (data r)) = ["0xB2"; "0xA1"]
  /\ StronglySorted (notAfter (Some votingPower) (Some Sample.wallet))
                    (members (data r)).
Proof.
  cbv zeta. split; [reflexivity|].
  apply (graphql_members_ordered World.indexed "0x50" (Some TokenVotingPlugin)
           (Some {| opt_searchTerm := None; opt_sort := Some votingPower;
                    opt_page := None; opt_countOnly := None;
                    opt_memberList := None; opt_enabled := None |})
           votingPower); reflexivity.
Defined.

(** ** The search term *)

Lemma lowerUnit_idem (c : ascii) : Js.lowerUnit (Js.lowerUnit c) = Js.lowerUnit c.
Proof. destruct c as [[] [] [] [] [] [] [] []]; reflexivity. Qed.

Lemma toLowerCase_idem (s : string) :
  Js.toLowerCase (Js.toLowerCase s) = Js.toLowerCase s.
Proof.
  induction s as [|c s IH]; simpl; trivial. now rewrite lowerUnit_idem, IH.
Qed.

Lemma toLowerCase_truthy (s t : string) :
  Js.toLowerCase s = Js.toLowerCase t ->
  Js.truthyString (Some s) = Js.truthyString (Some t).
Proof. destruct s, t; simpl; congruence. Qed.

Lemma prefix_spec (a s : string) :
  String.prefix a s = true <-> exists post, s = (a ++ post)%string.
Proof.
  revert s. induction a as [|c a IH]; intros s.
  - destruct s; simpl; split; trivial; intros _; eexists; reflexivity.
  - destruct s as [|c' s]; simpl.
    + split; [discriminate | intros (post & E); discriminate].
    + destruct (ascii_dec c c') as [<-|N].
      * rewrite IH. split; intros (post & E); exists post.
        -- now rewrite E.
        -- now injection E.
      * split; [discriminate|]. intros (post & E). injection E as E1 E2.
        now subst.
Qed.

(** [s.includes(sub)] holds exactly when [s] is some text, then [sub], then
    some text. *)
Lemma includes_spec (s sub : string) :
  Js.includes s sub = true <-> exists pre post, s = (pre ++ sub ++ post)%string.
Proof.
  induction s as [|c s IH].
  - cbn [Js.includes]. rewrite orb_false_r, prefix_spec. split.
    + intros (post & E). now exists "", post.
    + intros (pre & post & E). destruct pre as [|c pre]; [|discriminate].
      now exists post.
  - cbn [Js.includes]. rewrite orb_true_iff, prefix_spec, IH. split.
    + intros [(post & E) | (pre & post & E)].
      * now exists "", post.
      * exists (String c pre), post. simpl. now rewrite E.
    + intros (pre & post & E). destruct pre as [|c' pre].
      * left. now exists post.
      * right. simpl in E. injection E as _ E. now exists pre, post.
Qed.

(** The search term bears on [filteredMembers] only: for a call that is not
    gasless, [members], the count, the token and the two flags are the same
    whatever the search term is. *)
Theorem searchTerm_only_filters
    (env : Env) (pluginAddress : string) (pluginType : option PluginTypes)
    (o : DaoMembersOptions) (term : option string) :
  pluginType <> Some GaslessPluginName ->
  let r := useDaoMembers env pluginAddress pluginType (Some o) in
  let r' := useDaoMembers env pluginAddress pluginType
                          (Some (withSearchTerm o term)) in
  members (data r') = members (data r)
  /\ memberCount (data r') = memberCount (data r)
  /\ daoToken (data r') = daoToken (data r)
  /\ isLoading r' = isLoading r
  /\ isError r' = isError r.
Proof.
  intros G. cbv zeta.
  assert (G1 := enableCensus3_not_gasless pluginType (Some o) G).
  assert (G2 := enableCensus3_not_gasless pluginType (Some (withSearchTerm o term)) G).
  destruct (Hook.countOnly (Some o)) eqn:C.
  - rewrite (useDaoMembers_countOnly _ _ _ (Some o)) by trivial.
    rewrite (useDaoMembers_countOnly _ _ _ (Some (withSearchTerm o term)))
      by trivial.
    repeat split.
  - rewrite (useDaoMembers_full _ _ _ (Some o)) by trivial.
    rewrite (useDaoMembers_full _ _ _ (Some (withSearchTerm o term)))
      by trivial.
    repeat split.
Qed.

Lemma searchTerm_only_filters_witness :
  let r := useDaoMembers World.listed "0x50" (Some TokenVotingPlugin)
                         (World.only None None None) in
  let r' := useDaoMembers World.listed "0x50" (Some TokenVotingPlugin)
                          (World.only None None (Some "zz")) in
  filteredMembers (data r') = []
  /\ members (data r') = members (data r)
  /\ memberCount (data r') = 2%nat.
Proof.
  cbv zeta.
  destruct (searchTerm_only_filters World.listed "0x50" (Some TokenVotingPlugin)
              {| opt_searchTerm := None; opt_sort := None; opt_page := None;
                 opt_countOnly := None; opt_memberList := None;
                 opt_enabled := None |} (Some "zz"))
    as (Hm & Hc & _).
  - discriminate.
  - split; [reflexivity|]. split; [exact Hm|]. etransitivity; [exact Hc|reflexivity].
Defined.

(** The case of the search term does not matter: two terms with the same
    lower-case form give the same envelope, and so does a term and its
    lower-case form. *)
Theorem searchTerm_case_ignored
    (env : Env) (pluginAddress : string) (pluginType : option PluginTypes)
    (o : DaoMembersOptions) (term term' : string) :
  pluginType <> Some GaslessPluginName ->
  Js.toLowerCase term = Js.toLowerCase term' ->
  useDaoMembers env pluginAddress pluginType (Some (withSearchTerm o (Some term)))
  = useDaoMembers env pluginAddress pluginType (Some (withSearchTerm o (Some term')))
  /\ useDaoMembers env pluginAddress pluginType
       (Some (withSearchTerm o (Some (Js.toLowerCase term))))
     = useDaoMembers env pluginAddress pluginType
         (Some (withSearchTerm o (Some term))).
Proof.
  intros G.
  assert (K : forall t t', Js.toLowerCase t = Js.toLowerCase t' ->
    useDaoMembers env pluginAddress pluginType (Some (withSearchTerm o (Some t)))
    = useDaoMembers env pluginAddress pluginType (Some (withSearchTerm o (Some t')))).
  { intros t t' H.
    assert (G1 := enableCensus3_not_gasless pluginType
                    (Some (withSearchTerm o (Some t))) G).
    assert (G2 := enableCensus3_not_gasless pluginType
                    (Some (withSearchTerm o (Some t'))) G).
    destruct (Hook.countOnly (Some (withSearchTerm o (Some t)))) eqn:C.
    - rewrite (useDaoMembers_countOnly _ _ _ (Some (withSearchTerm o (Some t))))
        by trivial.
      rewrite (useDaoMembers_countOnly _ _ _ (Some (withSearchTerm o (Some t'))))
        by trivial.
      reflexivity.
    - rewrite (useDaoMembers_full _ _ _ (Some (withSearchTerm o (Some t))))
        by trivial.
      rewrite (useDaoMembers_full _ _ _ (Some (withSearchTerm o (Some t'))))
        by trivial.
      assert (F : Hook.filteredData env pluginAddress pluginType
                                    (Some (withSearchTerm o (Some t)))
                  = Hook.filteredData env pluginAddress pluginType
                                      (Some (withSearchTerm o (Some t')))).
      { unfold Hook.filteredData, Hook.searchTerm, Hook.opts.
        cbn [Js.nullish withSearchTerm opt_searchTerm Js.asString].
        rewrite (toLowerCase_truthy t t' H), H. reflexivity. }
      rewrite F. reflexivity. }
  intros H. split; [now apply K|].
  apply K. apply toLowerCase_idem.
Qed.

Lemma searchTerm_case_ignored_witness :
  useDaoMembers World.listed "0x50" (Some TokenVotingPlugin)
                (World.only None None (Some "0xAB"))
  = useDaoMembers World.listed "0x50" (Some TokenVotingPlugin)
                  (World.only None None (Some "0Xab")).
Proof.
  destruct (searchTerm_case_ignored World.listed "0x50" (Some TokenVotingPlugin)
              {| opt_searchTerm := None; opt_sort := None; opt_page := None;
                 opt_countOnly := None; opt_memberList := None;
                 opt_enabled := None |} "0xAB" "0Xab") as [H _].
  - discriminate.
  - reflexivity.
  - exact H.
Defined.

(** With a search term, a member is in [filteredMembers] exactly when it is
    in [members] and the lower-case form of its address reads: some text,
    the lower-case form of the term, some text. *)
Theorem filteredMembers_substring
    (env : Env) (pluginAddress : string) (pluginType : option PluginTypes)
    (options : option DaoMembersOptions) (term : string) (m : DaoMember) :
  Hook.countOnly options = false ->
  pluginType <> Some GaslessPluginName ->
  opt_searchTerm (Hook.opts options) = Some term ->
  let r := useDaoMembers env pluginAddress pluginType options in
  In m (filteredMembers (data r))
  <-> In m (members (data r))
      /\ exists pre post,
           Js.toLowerCase (memberAddress m)
           = (pre ++ Js.toLowerCase term ++ post)%string.
Proof.
  intros C G T. cbv zeta.
  rewrite useDaoMembers_full by (trivial; now apply enableCensus3_not_gasless).
  simpl. unfold Hook.filteredData, Hook.searchTerm. rewrite T.
  destruct term as [|c term]; simpl.
  - split; [|now intros [H _]].
    intros H. split; trivial. now exists "", (Js.toLowerCase (memberAddress m)).
  - rewrite filter_In.
    change (Js.asString (Some (String c term))) with (String c term).
    rewrite includes_spec. reflexivity.
Qed.

Lemma filteredMembers_substring_witness :
  let r := useDaoMembers World.listed "0x50" (Some TokenVotingPlugin)
                         (World.only None None (Some "B0")) in
  In (Sample.basic "0xAB01") (filteredMembers (data r)).
Proof.
  cbv zeta.
  apply (filteredMembers_substring World.listed "0x50" (Some TokenVotingPlugin)
           (World.only None None (Some "B0")) "B0" (Sample.basic "0xAB01")
           eq_refl).
  - discriminate.
  - reflexivity.
  - split; [simpl; auto|]. exists "0xa", "1". reflexivity.
Defined.

(** ** Comparison of addresses *)

(** [compareAddresses] is an equivalence that ignores the case: it is
    reflexive, symmetric and transitive, it does not change when an address
    is replaced by its lower-case form, a missing address equals a missing
    one and differs from every present one. *)
Theorem compareAddresses_equivalence :
  (forall a, compareAddresses a a = true)
  /\ (forall a b, compareAddresses a b = compareAddresses b a)
  /\ (forall a b c, compareAddresses a b = true -> compareAddresses b c = true ->
                    compareAddresses a c = true)
  /\ (forall a b, compareAddresses (Some (Js.toLowerCase a)) b
                  = compareAddresses (Some a) b)
  /\ (forall a, compareAddresses (Some a) None = false
                /\ compareAddresses None (Some a) = false).
Proof.
  repeat apply conj.
  - intros [a|]; simpl; trivial. apply String.eqb_refl.
  - intros [a|] [b|]; simpl; trivial. apply String.eqb_sym.
  - intros [a|] [b|] [c|]; simpl; intros H1 H2; trivial; try discriminate.
    apply String.eqb_eq in H1, H2. apply String.eqb_eq. congruence.
  - intros a b. unfold compareAddresses. cbn [option_map].
    now rewrite toLowerCase_idem.
  - intros a. split; reflexivity.
Qed.

Lemma compareAddresses_equivalence_witness :
  compareAddresses (Some "0xABC1") (Some "0xabc1") = true
  /\ compareAddresses (Some "0xAbC1") (Some "0xabc1") = true.
Proof.
  destruct compareAddresses_equivalence as (_ & Hsym & Htrans & Hlow & _).
  split.
  - rewrite <- (Hlow "0xABC1" (Some "0xabc1")). reflexivity.
  - apply (Htrans (Some "0xAbC1") (Some "0xABC1") (Some "0xabc1")); reflexivity.
Defined.

(** ** The explore page *)

Lemma string_length_append (a b : string) :
  String.length (a ++ b) = (String.length a + String.length b)%nat.
Proof. induction a as [|c a IH]; simpl; auto. Qed.

Lemma slice0_length (n : nat) (s : string) :
  String.length (Explore.slice0 n s) = Nat.min n (String.length s).
Proof.
  unfold Explore.slice0. revert s.
  induction n as [|n IH]; intros [|c s]; simpl; auto.
Qed.

Lemma slice0_short (n : nat) (s : string) :
  (String.length s <= n)%nat -> Explore.slice0 n s = s.
Proof.
  unfold Explore.slice0. revert s.
  induction n as [|n IH]; intros [|c s]; simpl; intros H; trivial.
  - lia.
  - f_equal. apply IH. lia.
Qed.

Lemma slice0_prefix (n : nat) (s : string) :
  String.prefix (Explore.slice0 n s) s = true.
Proof.
  unfold Explore.slice0. revert s.
  induction n as [|n IH]; intros [|c s]; simpl; trivial.
  destruct (ascii_dec c c); [apply IH|congruence].
Qed.

(** The title of a DAO item is "DAO: " and the address on a wide screen, of
    length 5 more than the address.  On a mobile screen it is "DAO: ", the
    first 15 characters of the address and "...", so never longer than 23
    characters; an address of at most 15 characters is shown whole and
    still followed by "...". *)
Theorem title_shape (dao : string) :
  String.length (Explore.title false dao) = (5 + String.length dao)%nat
  /\ String.length (Explore.title true dao)
     = (8 + Nat.min 15 (String.length dao))%nat
  /\ (String.length (Explore.title true dao) <= 23)%nat
  /\ (exists shown, Explore.title true dao = ("DAO: " ++ shown ++ "...")%string
                    /\ String.prefix shown dao = true)
  /\ ((String.length dao <= 15)%nat ->
      Explore.title true dao = (Explore.title false dao ++ "...")%string).
Proof.
  assert (L : String.length (Explore.title true dao)
              = (8 + Nat.min 15 (String.length dao))%nat).
  { unfold Explore.title. rewrite !string_length_append, slice0_length.
    simpl. lia. }
  repeat apply conj; trivial.
  - rewrite L. lia.
  - exists (Explore.slice0 15 dao). split; [reflexivity|apply slice0_prefix].
  - intros H. unfold Explore.title. now rewrite slice0_short.
Qed.

Lemma title_shape_witness :
  Explore.title true "0x1234" = "DAO: 0x1234..."
  /\ Explore.titles true
     = ["DAO: 0x5aa80e80fd670..."; "DAO: 0xa2e993c4fd68f..."].
Proof.
  destruct (title_shape "0x1234") as (_ & _ & _ & _ & H).
  split; [|reflexivity].
  rewrite H; [reflexivity | simpl; lia].
Defined.

Lemma parsedGraphqlData_shape_witness :
  map memberAddress
      (Hook.parsedGraphqlData World.indexed "0x50" (Some TokenVotingPlugin) None)
  = ["0xA1"; "0xB2"]
  /\ existsb (fun d => compareAddresses (Some d) (Some "0xB2")) ["0xA1"] = false.
Proof.
  destruct (parsedGraphqlData_shape World.indexed "0x50" (Some TokenVotingPlugin) None)
    as (Ha & _ & Hd).
  split; [exact Ha|].
  apply (Hd {| tk_address := "0xB2"; tk_balance := formatUnits 4 (Some 0%nat);
               tk_votingPower := formatUnits 7 (Some 0%nat);
               tk_delegatee := "0xB2"; tk_delegators := ["0xA1"] |}).
  right. left. reflexivity.
Defined.

(** ** More on sorted lists *)

(** With the key ["delegations"], a list of Token members none of which is
    the connected user or a delegator of the connected user is sorted into a
    rearrangement whose numbers of delegators never increase. *)
Theorem sort_delegations_descending
    (userAddress : option string) (l : list TokenDaoMember) :
  Forall (fun t => isConnectedUser userAddress (Token t) = false
                   /\ isDelegator userAddress t = false) l ->
  exists sorted,
    Js.sort (sortDaoMembers (Some delegations) userAddress) (map Token l)
    = map Token sorted
    /\ Permutation l sorted
    /\ StronglySorted
         (fun a b => (List.length (tk_delegators b)
                      <= List.length (tk_delegators a))%nat) sorted.
Proof.
  intros Hl.
  destruct (sort_same_variant_ordered_aux (Some delegations) userAddress true
                                          (map Token l)) as [HS HP].
  { rewrite Forall_forall. intros m Hm. apply in_map_iff in Hm.
    now destruct Hm as (t & <- & _). }
  apply Permutation_map_inv in HP. destruct HP as (sorted & E & HP).
  exists sorted. split; trivial. split; trivial.
  rewrite E in HS.
  apply (StronglySorted_map_inv Token
           (fun t => isConnectedUser userAddress (Token t) = false
                     /\ isDelegator userAddress t = false)
           (notAfter (Some delegations) userAddress)); trivial.
  - intros a b [Ua Da] [Ub Db]. unfold notAfter.
    rewrite cmp_tokens by trivial.
    destruct (Z.eqb_spec (Z.of_nat (List.length (tk_delegators b)))
                         (Z.of_nat (List.length (tk_delegators a)))) as [Q|Q].
    + intros _. lia.
    + change 0%Q with (inject_Z 0). rewrite <- Zle_Qle. lia.
  - apply (Permutation_Forall HP Hl).
Qed.

Lemma sort_delegations_descending_witness :
  exists sorted,
    Js.sort (sortDaoMembers (Some delegations) None)
            (map Token [Sample.dave; Sample.erin; Sample.carol])
    = map Token sorted
    /\ Permutation [Sample.dave; Sample.erin; Sample.carol] sorted
    /\ StronglySorted
         (fun a b => (List.length (tk_delegators b)
                      <= List.length (tk_delegators a))%nat) sorted.
Proof.
  apply (sort_delegations_descending None
           [Sample.dave; Sample.erin; Sample.carol]).
  repeat constructor.
Defined.

(** A list of Basic members none of which is the connected user is sorted,
    whatever the key, into a rearrangement in which no address is greater,
    code unit by code unit, than an address that follows it. *)
Theorem sort_basic_ascending
    (sortKey : option DaoMemberSort) (userAddress : option string)
    (l : list MultisigDaoMember) :
  Forall (fun b => isConnectedUser userAddress (Basic b) = false) l ->
  exists sorted,
    Js.sort (sortDaoMembers sortKey userAddress) (map Basic l) = map Basic sorted
    /\ Permutation l sorted
    /\ StronglySorted (fun a b => Js.gt (ms_address a) (ms_address b) = false)
                      sorted.
Proof.
  intros Hl.
  destruct (sort_same_variant_ordered_aux sortKey userAddress false (map Basic l))
    as [HS HP].
  { rewrite Forall_forall. intros m Hm. apply in_map_iff in Hm.
    now destruct Hm as (t & <- & _). }
  apply Permutation_map_inv in HP. destruct HP as (sorted & E & HP).
  exists sorted. split; trivial. split; trivial.
  rewrite E in HS.
  apply (StronglySorted_map_inv Basic
           (fun b => isConnectedUser userAddress (Basic b) = false)
           (notAfter sortKey userAddress)); trivial.
  - intros a b Ua Ub. unfold notAfter.
    rewrite cmp_fallback by trivial. simpl.
    destruct (Js.gt (ms_address a) (ms_address b)); trivial. lra.
  - apply (Permutation_Forall HP Hl).
Qed.

Lemma sort_basic_ascending_witness :
  exists sorted,
    Js.sort (sortDaoMembers (Some votingPower) (Some Sample.wallet))
            (map Basic [ {| ms_address := "0xb" |}; {| ms_address := "0xB" |};
                         {| ms_address := "0x1" |} ])
    = map Basic sorted
    /\ Permutation [ {| ms_address := "0xb" |}; {| ms_address := "0xB" |};
                     {| ms_address := "0x1" |} ] sorted
    /\ StronglySorted (fun a b => Js.gt (ms_address a) (ms_address b) = false)
                      sorted.
Proof.
  apply (sort_basic_ascending (Some votingPower) (Some Sample.wallet)
           [ {| ms_address := "0xb" |}; {| ms_address := "0xB" |};
             {| ms_address := "0x1" |} ]).
  repeat constructor.
Defined.

(** On the full path with a sort key, when the combined data holds a member
    with the address of the connected wallet (the case ignored), the first
    element of [members] carries that address. *)
Theorem members_connected_user_first
    (env : Env) (pluginAddress : string) (pluginType : option PluginTypes)
    (options : option DaoMembersOptions) (key : DaoMemberSort) (m : DaoMember) :
  Hook.countOnly options = false ->
  pluginType <> Some GaslessPluginName ->
  opt_sort (Hook.opts options) = Some key ->
  In m (Hook.getCombinedData env pluginAddress pluginType options) ->
  compareAddresses (Some (memberAddress m)) (useWallet env) = true ->
  exists first rest,
    members (data (useDaoMembers env pluginAddress pluginType options))
    = first :: rest
    /\ compareAddresses (Some (memberAddress first)) (useWallet env) = true.
Proof.
  intros C G K Hin Hm.
  rewrite useDaoMembers_full by (trivial; now apply enableCensus3_not_gasless).
  simpl. unfold Hook.sortedData. rewrite K.
  apply (sort_user_head (Some key) (useWallet env)). now exists m.
Qed.

Lemma members_connected_user_first_witness :
  let env := World.make "base" (World.answer None false false)
               (World.answer (Some [SdkAddress "0x01"; SdkAddress "0xABC1"])
                             false false) 0 in
  let o := Some {| opt_searchTerm := None; opt_sort := Some votingPower;
                   opt_page := None; opt_countOnly := None;
                   opt_memberList := None; opt_enabled := None |} in
  exists first rest,
    members (data (useDaoMembers env "0x50" (Some MultisigPlugin) o))
    = first :: rest
    /\ compareAddresses (Some (memberAddress first)) (Some Sample.wallet) = true.
Proof.
  cbv zeta.
  apply (members_connected_user_first
           (World.make "base" (World.answer None false false)
              (World.answer (Some [SdkAddress "0x01"; SdkAddress "0xABC1"])
                            false false) 0)
           "0x50" (Some MultisigPlugin)
           (Some {| opt_searchTerm := None; opt_sort := Some votingPower;
                    opt_page := None; opt_countOnly := None;
                    opt_memberList := None; opt_enabled := None |})
           votingPower (Sample.basic "0xABC1")).
  - reflexivity.
  - discriminate.
  - reflexivity.
  - right. left. reflexivity.
  - reflexivity.
Defined.
